(** * tdd-guard: lint adapters (Statix, nixf-tidy) and the Nix test reporter

    A shallow embedding of

    - [src/contracts/schemas/lintSchemas.ts]   (module [Schemas]),
    - [src/linters/statix/Statix.ts]           (module [Statix]),
    - [src/linters/nixf/NixfTidy.ts]           (module [NixfTidy]),
    - [reporters/nix/src/tdd-guard-nix.sh]     (module [NixReporter]),

    followed by the properties of the normalisation contract.

    Conventions.  Text is a [string] of bytes (UTF-8, as the shell sees
    it and as Node decodes it).  JavaScript numbers that hold positions
    are integers [Z] (exact below 2^53).  The external runtime is an
    input of the model: the outcome of a child process is data handed to
    the adapter, [JSON.parse] is the class [JSONParse], and the clock is
    the [timestamp] argument.  TypeScript types are erased when the code
    runs: where an adapter reads into a parsed value outside any [try],
    the value may have another shape than the declared one. *)

From Stdlib Require Import String Ascii List ZArith Bool Arith Lia.
Import ListNotations.
Open Scope string_scope.
Open Scope list_scope.
Open Scope nat_scope.

(* ================================================================== *)
(** ** Bytes and text *)

Module Text.

Definition LF : ascii := "010"%char.
Definition NUL : ascii := "000"%char.
Definition ESC : ascii := "027"%char.

Definition nonempty (s : string) : bool :=
  match s with EmptyString => false | String _ _ => true end.

Definition is_digit (c : ascii) : bool :=
  let n := nat_of_ascii c in (48 <=? n) && (n <=? 57).

Definition is_upper (c : ascii) : bool :=
  let n := nat_of_ascii c in (65 <=? n) && (n <=? 90).

(** [p] followed by the rest of [s], when [s] starts with [p]. *)
Fixpoint strip_prefix (p s : string) : option string :=
  match p, s with
  | EmptyString, _ => Some s
  | String a p', String b s' => if Ascii.eqb a b then strip_prefix p' s' else None
  | String _ _, EmptyString => None
  end.

Definition starts_with (p s : string) : bool :=
  match strip_prefix p s with Some _ => true | None => false end.

(** The longest run of decimal digits at the head of [s], and what follows. *)
Fixpoint take_digits (s : string) : string * string :=
  match s with
  | String c tl =>
      if is_digit c
      then let (ds, rest) := take_digits tl in (String c ds, rest)
      else (EmptyString, s)
  | EmptyString => (EmptyString, EmptyString)
  end.

(** [s] holds [sub] as a contiguous piece. *)
Definition infix (sub s : string) : Prop :=
  exists pre post, s = (pre ++ sub ++ post)%string.

Fixpoint rev (s : string) : string :=
  match s with
  | EmptyString => EmptyString
  | String c tl => (rev tl ++ String c EmptyString)%string
  end.

End Text.

(* ================================================================== *)
(** ** The JavaScript built-ins the adapters call *)

Module JS.
Import Text.

(** A settled promise: the value an [async] function returns, or the
    value it throws. *)
Inductive Completion (E A : Type) : Type :=
| Returned (a : A)
| Raised (e : E).
Arguments Returned {E A} a.
Arguments Raised {E A} e.

(** [JSON.parse(text)]: [None] when the call throws a SyntaxError, and
    else the parsed value.  [A] is what an adapter can meet in a parsed
    value: [Statix.Parsed], [NixfTidy.Parsed]. *)
Class JSONParse (A : Type) := JSON_parse : string -> option A.

(** ECMAScript WhiteSpace and LineTerminator code points, as UTF-8. *)
Definition ws1 (c : ascii) : bool :=
  let n := nat_of_ascii c in ((9 <=? n) && (n <=? 13)) || (n =? 32).

Definition ws2 (c1 c2 : ascii) : bool :=
  (nat_of_ascii c1 =? 194) && (nat_of_ascii c2 =? 160).          (* U+00A0 *)

Definition ws3 (c1 c2 c3 : ascii) : bool :=
  let a := nat_of_ascii c1 in
  let b := nat_of_ascii c2 in
  let c := nat_of_ascii c3 in
  ((a =? 225) && (b =? 154) && (c =? 128))                        (* U+1680 *)
  || ((a =? 226) && (b =? 128)
      && (((128 <=? c) && (c <=? 138))                            (* U+2000..200A *)
          || (c =? 168) || (c =? 169) || (c =? 175)))             (* U+2028 2029 202F *)
  || ((a =? 226) && (b =? 129) && (c =? 159))                     (* U+205F *)
  || ((a =? 227) && (b =? 128) && (c =? 128))                     (* U+3000 *)
  || ((a =? 239) && (b =? 187) && (c =? 191)).                    (* U+FEFF *)

(** Drop white space at the head; with [back] the text is read from its
    end, so multi-byte code points arrive last byte first. *)
Fixpoint drop_ws (back : bool) (s : string) : string :=
  match s with
  | EmptyString => EmptyString
  | String c1 tl1 =>
      if ws1 c1 then drop_ws back tl1 else
      match tl1 with
      | EmptyString => s
      | String c2 tl2 =>
          if (if back then ws2 c2 c1 else ws2 c1 c2) then drop_ws back tl2 else
          match tl2 with
          | EmptyString => s
          | String c3 tl3 =>
              if (if back then ws3 c3 c2 c1 else ws3 c1 c2 c3)
              then drop_ws back tl3 else s
          end
      end
  end.

(** [String.prototype.trim]. *)
Definition trim (s : string) : string :=
  rev (drop_ws true (rev (drop_ws false s))).

(** [s.split(sep)] for a one-character separator. *)
Fixpoint split (sep : ascii) (s : string) : list string :=
  match s with
  | EmptyString => [EmptyString]
  | String c tl =>
      match split sep tl with
      | hd :: rest =>
          if Ascii.eqb c sep then EmptyString :: hd :: rest
          else String c hd :: rest
      | [] => [if Ascii.eqb c sep then EmptyString else String c EmptyString]
      end
  end.

(** Truthiness of a string, as in [filter(Boolean)] and [if (s)]. *)
Definition truthy (s : string) : bool := nonempty s.

(** The text before and after the first ["{}"] of [s]. *)
Fixpoint find_braces (s : string) : option (string * string) :=
  match s with
  | EmptyString => None
  | String c tl =>
      match tl with
      | EmptyString => None
      | String c2 tl2 =>
          if Ascii.eqb c "{" && Ascii.eqb c2 "}" then Some (EmptyString, tl2)
          else match find_braces tl with
               | Some (pre, post) => Some (String c pre, post)
               | None => None
               end
      end
  end.

(** GetSubstitution for a string pattern (no capture groups): [$$], [$&],
    [$`] and [$'] are expanded, every other text is literal. *)
Fixpoint get_substitution (matched before after replacement : string) : string :=
  match replacement with
  | EmptyString => EmptyString
  | String c tl =>
      if Ascii.eqb c "$" then
        match tl with
        | EmptyString => String c EmptyString
        | String d tl2 =>
            if Ascii.eqb d "$" then String "$" (get_substitution matched before after tl2)
            else if Ascii.eqb d "&" then (matched ++ get_substitution matched before after tl2)%string
            else if Ascii.eqb d "`" then (before ++ get_substitution matched before after tl2)%string
            else if Ascii.eqb d "'" then (after ++ get_substitution matched before after tl2)%string
            else String c (get_substitution matched before after tl)
        end
      else String c (get_substitution matched before after tl)
  end.

(** [message.replace('{}', arg)]: the first occurrence only. *)
Definition replace_braces (message arg : string) : string :=
  match find_braces message with
  | Some (before, after) =>
      (before ++ get_substitution "{}" before after arg ++ after)%string
  | None => message
  end.

End JS.

(* ================================================================== *)
(** ** src/contracts/schemas/lintSchemas.ts *)

Module Schemas.

Inductive Severity := error | warning.

Definition Severity_eqb (a b : Severity) : bool :=
  match a, b with
  | error, error | warning, warning => true
  | _, _ => false
  end.

Record StatixSuggestion := {
  at_from : Z;
  at_to : Z;
  suggestion_note : string;
  suggestion_fix : option (string * string)      (* fix, replacement *)
}.

Record StatixReport := {
  report_file : string;
  report_kind : string;                           (* 'warn' | 'error' *)
  report_note : string;
  suggestions : list StatixSuggestion
}.

Record NixfCursor := { column : Z; line : Z; offset : Z }.

Record NixfRange := { lCur : NixfCursor; rCur : NixfCursor }.

(** [fixes], [notes] and [tag] are carried by the tool and never read by
    the adapter. *)
Record NixfDiagnostic := {
  args : list string;
  kind : Z;
  message : string;
  range : NixfRange;
  severity : Z;                     (* 0=Fatal 1=Error 2=Warning 3=Info 4=Hint *)
  sname : string
}.

Record LintIssue := {
  issue_file : string;
  issue_line : Z;
  issue_column : Z;
  issue_severity : Severity;
  issue_message : string;
  issue_rule : option string
}.

Record LintResult := {
  timestamp : string;
  files : list string;
  issues : list LintIssue;
  errorCount : nat;
  warningCount : nat
}.

End Schemas.

(* ================================================================== *)
(** ** src/linters/statix/Statix.ts *)

Module Statix.
Import Text JS Schemas.

(** A value thrown by [execFileAsync].  [error_stdout] is [None] when the
    object has no [stdout] property, [Some None] when the property is
    there and holds [undefined]. *)
Record ErrorObject := {
  error_message : string;
  error_stdout : option (option string)
}.

Inductive Thrown :=
| ThrownPrimitive                     (* [null], or a value that is no object *)
| ThrownObject (e : ErrorObject)
| ThrownTypeError.                    (* the TypeError of a failed read *)

(** How [await execFileAsync('statix', args, ...)] settles. *)
Inductive ExecFile :=
| Resolved (stdout stderr : string)
| Rejected (thrown : Thrown).

(** What becomes of the statix process, as [execFile] reports it to its
    callback: it ran and succeeded, it ran and failed, or there is no
    process because the binary does not exist or may not be executed
    (the 'error' event of the child: ENOENT, EACCES). *)
Inductive Process :=
| Succeeds (stdout stderr : string)               (* exit code 0 *)
| Fails (message stdout stderr : string)          (* another exit code, a signal *)
| SpawnFails (message : string).

(** [execFileAsync = promisify(execFile)], line 10, as Node defines it.
    It resolves with the output of a process that succeeds.  Every error
    that [execFile] hands to its callback is rejected with [stdout] and
    [stderr] added to it: the error of a process that failed, and also
    the error of a process that could not be spawned, whose output is
    the empty text. *)
Definition execFileAsync (process : Process) : ExecFile :=
  match process with
  | Succeeds stdout stderr => Resolved stdout stderr
  | Fails message stdout _ =>
      Rejected (ThrownObject {| error_message := message;
                                error_stdout := Some (Some stdout) |})
  | SpawnFails message =>
      Rejected (ThrownObject {| error_message := message;
                                error_stdout := Some (Some "") |})
  end.

(** What [JSON.parse(line)] holds.  The adapter declares it a
    [StatixReport] and checks nothing.  [ParsedReport] is an object
    whose [suggestions] is an array of objects, each with an [at] that is
    neither missing nor [null] and a [note] that is a string; the members
    the adapter only copies or compares ([file], [report_kind],
    [at.from]) are taken at their declared types.  [ParsedOther] is
    every other JSON value ([null], a number, a string, an array, [{}],
    an object whose [suggestions] is no array, a suggestion without [at]
    or with a [note] that is no string): one of the reads
    [report.suggestions.map], [suggestion.at.from], [message.match]
    throws a TypeError on it. *)
Inductive Parsed :=
| ParsedReport (report : StatixReport)
| ParsedOther.

Definition buildArgs (files : list string) (configPath : option string) : list string :=
  let args := ["check"] ++ files ++ ["--output"; "json"] in
  match configPath with
  | Some p => if truthy p then args ++ ["--config"; p] else args
  | None => args
  end.

Definition isExecError (thrown : Thrown) : bool :=
  match thrown with
  | ThrownPrimitive => false
  | ThrownObject e =>
      match error_stdout e with Some _ => true | None => false end
  | ThrownTypeError => false                        (* no [stdout] property *)
  end.

(** [error.stdout] of a value that passed [isExecError]. *)
Definition stdout_of (thrown : Thrown) : option string :=
  match thrown with
  | ThrownObject e =>
      match error_stdout e with Some s => s | None => None end
  | ThrownPrimitive | ThrownTypeError => None
  end.

Definition extractRuleFromMessage (message : string) : option string :=
  (* /\[([A-Z]\d+)\]/ tried at the text that follows a '[' *)
  let rule_here (s : string) : option string :=
    match s with
    | String c tl =>
        if is_upper c then
          match take_digits tl with
          | (String d ds, String close _) =>
              if Ascii.eqb close "]" then Some (String c (String d ds)) else None
          | _ => None
          end
        else None
    | EmptyString => None
    end in
  (fix scan (s : string) : option string :=
     match s with
     | EmptyString => None
     | String c tl =>
         if Ascii.eqb c "[" then
           match rule_here tl with
           | Some r => Some r
           | None => scan tl
           end
         else scan tl
     end) message.

Definition toIssue (report : StatixReport) (suggestion : StatixSuggestion) : LintIssue :=
  {| issue_file := report_file report;
     issue_line := 1%Z;
     issue_column := at_from suggestion;
     issue_severity := if String.eqb (report_kind report) "error" then error else warning;
     issue_message := suggestion_note suggestion;
     issue_rule := extractRuleFromMessage (suggestion_note suggestion) |}.

Definition extractIssues (results : list StatixReport) : list LintIssue :=
  flat_map (fun report => map (fun suggestion => toIssue report suggestion)
                              (suggestions report))
           results.

Definition countBySeverity (issues : list LintIssue) (severity : Severity) : nat :=
  length (filter (fun i => Severity_eqb (issue_severity i) severity) issues).

Definition createLintData (timestamp : string) (files : list string)
    (results : list StatixReport) : LintResult :=
  let issues := extractIssues results in
  {| Schemas.timestamp := timestamp;
     Schemas.files := files;
     Schemas.issues := issues;
     errorCount := countBySeverity issues error;
     warningCount := countBySeverity issues warning |}.

(** The parsed values as [createLintData] reads them, at the type
    [StatixReport[]] that [parseResults] declares: [None] when one of
    them is no report, where a read of [extractIssues] or of [toIssue]
    throws a TypeError.  The reads have no effect, so that nothing but
    the TypeError is left of a list that holds such a value. *)
Fixpoint asReports (results : list Parsed) : option (list StatixReport) :=
  match results with
  | [] => Some []
  | ParsedReport report :: rest =>
      match asReports rest with
      | Some reports => Some (report :: reports)
      | None => None
      end
  | ParsedOther :: _ => None
  end.

Section WithRuntime.
Context {parser : JSONParse Parsed}.

(** [lines.map(line => JSON.parse(line))]: the first line that does not
    parse throws, and nothing of the array is kept. *)
Fixpoint parseLines (lines : list string) : option (list Parsed) :=
  match lines with
  | [] => Some []
  | l :: rest =>
      match JSON_parse l with
      | None => None
      | Some report =>
          match parseLines rest with
          | None => None
          | Some reports => Some (report :: reports)
          end
      end
  end.

(** The lines handed to [JSON.parse]: Statix prints one object per line. *)
Definition outputLines (stdout : string) : list string :=
  filter truthy (split LF (trim stdout)).

Definition parseResults (stdout : option string) : list Parsed :=
  match stdout with
  | None => []
  | Some out =>
      if negb (truthy (trim out)) then []
      else match parseLines (outputLines out) with
           | Some reports => reports
           | None => []                                   (* catch *)
           end
  end.

(** [run] is the process runner: what [execFileAsync] does with the
    arguments it is given.  The [try] of [parseResults] ends before
    [createLintData] reads the parsed values, and that call stands in
    the [catch] block of [lint]: its TypeError leaves [lint]. *)
Definition lint (timestamp : string) (filePaths : list string)
    (configPath : option string) (run : list string -> ExecFile)
  : Completion Thrown LintResult :=
  let args := buildArgs filePaths configPath in
  match run args with
  | Resolved _ _ => Returned (createLintData timestamp filePaths [])
  | Rejected thrown =>
      if negb (isExecError thrown) then Raised thrown          (* throw error *)
      else
        let results := parseResults (stdout_of thrown) in
        match asReports results with
        | Some reports => Returned (createLintData timestamp filePaths reports)
        | None => Raised ThrownTypeError
        end
  end.

End WithRuntime.

End Statix.

(* ================================================================== *)
(** ** src/linters/nixf/NixfTidy.ts *)

Module NixfTidy.
Import Text JS Schemas.

(** What [JSON.parse(stdout)] holds: nixf-tidy prints an array, and the
    adapter wraps a lone object.  The diagnostics are taken at their
    declared type; [lint] reads into them inside its [try], where a
    TypeError cannot leave it. *)
Inductive Parsed :=
| ParsedArray (diagnostics : list NixfDiagnostic)
| ParsedObject (diagnostic : NixfDiagnostic).

(** What happens to the child process of one file: the file cannot be
    read, the process cannot be spawned ('error' event), or it closes. *)
Inductive Spawned :=
| ReadFails (readError : string)
| SpawnFails (message : string)
| Closes (code : option Z) (stdout stderr : string).

(** The [Error] a rejected [lintFile] carries. *)
Inductive LintFileError :=
| ToolFailed (stderr : string)            (* nixf-tidy failed: ... *)
| ParseFailed                             (* Failed to parse nixf-tidy output *)
| SpawnFailed (message : string)          (* Failed to spawn nixf-tidy: ... *)
| ReadFailed (filePath readError : string).

Definition convertSeverity (nixfSeverity : Z) : Severity :=
  if (nixfSeverity <=? 1)%Z then error else warning.

Definition formatMessage (diagnostic : NixfDiagnostic) : string :=
  fold_left (fun message arg => replace_braces message arg)
            (args diagnostic) (message diagnostic).

Definition convertDiagnosticsToIssues (filePath : string)
    (diagnostics : list NixfDiagnostic) : list LintIssue :=
  map (fun diagnostic =>
         {| issue_file := filePath;
            issue_line := (line (lCur (range diagnostic)) + 1)%Z;
            issue_column := (column (lCur (range diagnostic)) + 1)%Z;
            issue_severity := convertSeverity (severity diagnostic);
            issue_message := formatMessage diagnostic;
            issue_rule := Some (sname diagnostic) |})
      diagnostics.

Definition countBySeverity (issues : list LintIssue) (severity : Severity) : nat :=
  length (filter (fun issue => Severity_eqb (issue_severity issue) severity) issues).

Section WithRuntime.
Context {parser : JSONParse Parsed}.

Definition lintFile (filePath : string) (child : Spawned)
  : Completion LintFileError (list NixfDiagnostic) :=
  match child with
  | ReadFails readError => Raised (ReadFailed filePath readError)
  | SpawnFails message => Raised (SpawnFailed message)
  | Closes code stdout stderr =>
      let nonzero := match code with Some 0%Z => false | _ => true end in
      if nonzero && truthy stderr then Raised (ToolFailed stderr)
      else if negb (truthy (trim stdout)) then Returned []
      else match JSON_parse stdout with
           | Some (ParsedArray diagnostics) => Returned diagnostics
           | Some (ParsedObject diagnostic) => Returned [diagnostic]
           | None => Raised ParseFailed
           end
  end.

(** One turn of the loop over [filePaths]: the issues pushed for a file,
    none when [lintFile] rejects (the catch only warns). *)
Definition lintOne (spawn : string -> Spawned) (issues : list LintIssue)
    (filePath : string) : list LintIssue :=
  match lintFile filePath (spawn filePath) with
  | Returned diagnostics => issues ++ convertDiagnosticsToIssues filePath diagnostics
  | Raised _ => issues
  end.

(** What one file adds to the issues. *)
Definition fileIssues (spawn : string -> Spawned) (filePath : string) : list LintIssue :=
  lintOne spawn [] filePath.

(** [spawn] is the process runner: what becomes of the nixf-tidy child
    started for a file. *)
Definition lint (timestamp : string) (filePaths : list string)
    (spawn : string -> Spawned) : Completion LintFileError LintResult :=
  let issues := fold_left (lintOne spawn) filePaths [] in
  Returned {| Schemas.timestamp := timestamp;
              Schemas.files := filePaths;
              Schemas.issues := issues;
              errorCount := countBySeverity issues error;
              warningCount := countBySeverity issues warning |}.

End WithRuntime.

End NixfTidy.

(* ================================================================== *)
(** ** reporters/nix/src/tdd-guard-nix.sh *)

Module NixReporter.
Import Text JS.

(** *** The document written to [test.json] *)

Inductive Status := passed | failed.

Record TestError := { message : string }.

(** [errors] is empty exactly when the key is left out of the object. *)
Record TestCase := {
  name : string;
  fullName : string;
  state : Status;
  errors : list TestError
}.

Record TestModule := { moduleId : string; tests : list TestCase }.

Record TestResult := { testModules : list TestModule; reason : Status }.

(** [create_test_result] writes [testModules] and [reason] and nothing
    else: a reader of the document finds no unhandled errors in it. *)
Definition unhandledErrors (result : TestResult) : list TestError := [].

Definition create_test_error (msg : string) : TestError := {| message := msg |}.

Definition create_test (name full_name : string) (state : Status)
    (errors : list TestError) : TestCase :=
  {| name := name; fullName := full_name; state := state; errors := errors |}.

Definition create_test_module (module_id : string) (tests : list TestCase) : TestModule :=
  {| moduleId := module_id; tests := tests |}.

Definition create_test_result (modules : list TestModule) (reason : Status) : TestResult :=
  {| testModules := modules; reason := reason |}.

(** *** The patterns of the line scanner

    Character classes are those of the POSIX locale, on bytes. *)

(** [[:space:]] *)
Definition is_space (c : ascii) : bool :=
  let n := nat_of_ascii c in ((9 <=? n) && (n <=? 13)) || (n =? 32).

(** [^[[:space:]]*$] *)
Fixpoint all_space (s : string) : bool :=
  match s with
  | EmptyString => true
  | String c tl => is_space c && all_space tl
  end.

(** [[[ -n "$line" && ! "$line" =~ ^[[:space:]]*$ ]]] *)
Definition has_content (line : string) : bool :=
  nonempty line && negb (all_space line).

(** [^warning:] *)
Definition is_warning (line : string) : bool := starts_with "warning:" line.

Fixpoint drop_spaces (s : string) : string :=
  match s with
  | String c tl => if is_space c then drop_spaces tl else s
  | EmptyString => EmptyString
  end.

(** [[[:space:]]+] at the head of [s]: what follows the run of spaces. *)
Definition spaces1 (s : string) : option string :=
  match s with
  | String c tl => if is_space c then Some (drop_spaces tl) else None
  | EmptyString => None
  end.

(** [([^[:space:]]+)]: the longest run without a space. *)
Fixpoint take_nonspace (s : string) : string :=
  match s with
  | String c tl => if is_space c then EmptyString else String c (take_nonspace tl)
  | EmptyString => EmptyString
  end.

Inductive Mark := check | cross.          (* ✅ | ❌ *)
Inductive Face := party | crying.         (* 🎉 | 😢 *)

(** [^(✅|❌)[[:space:]]+([^[:space:]]+)], with BASH_REMATCH 1 and 2. *)
Definition match_test_line (line : string) : option (Mark * string) :=
  let name_after (mark : Mark) (rest : string) :=
    match spaces1 rest with
    | Some r =>
        let test_name := take_nonspace r in
        if nonempty test_name then Some (mark, test_name) else None
    | None => None
    end in
  match strip_prefix "✅" line with
  | Some rest => name_after check rest
  | None =>
      match strip_prefix "❌" line with
      | Some rest => name_after cross rest
      | None => None
      end
  end.

(** [^(🎉|😢)[[:space:]]+([0-9]+)/([0-9]+)[[:space:]]+successful], with
    BASH_REMATCH 1, 2 and 3. *)
Definition match_summary (line : string) : option (Face * string * string) :=
  let counts_after (face : Face) (rest : string) :=
    match spaces1 rest with
    | Some r =>
        match take_digits r with
        | (String d ds, String slash r2) =>
            if Ascii.eqb slash "/" then
              match take_digits r2 with
              | (String e es, r3) =>
                  match spaces1 r3 with
                  | Some r4 =>
                      if starts_with "successful" r4
                      then Some (face, String d ds, String e es)
                      else None
                  | None => None
                  end
              | _ => None
              end
            else None
        | _ => None
        end
    | None => None
    end in
  match strip_prefix "🎉" line with
  | Some rest => counts_after party rest
  | None =>
      match strip_prefix "😢" line with
      | Some rest => counts_after crying rest
      | None => None
      end
  end.

(** [error:|Error:|syntax[[:space:]]+error] tried at the head of [s]. *)
Definition error_here (s : string) : bool :=
  starts_with "error:" s || starts_with "Error:" s
  || match strip_prefix "syntax" s with
     | Some r =>
         match spaces1 r with
         | Some r' => starts_with "error" r'
         | None => false
         end
     | None => false
     end.

(** The same pattern, unanchored. *)
Fixpoint is_error_line (line : string) : bool :=
  error_here line
  || match line with
     | String _ tl => is_error_line tl
     | EmptyString => false
     end.

(** [sed 's/\x1b\[[0-9;]*m//g'] on one line. *)
Fixpoint strip_ansi (s : string) : string :=
  match s with
  | EmptyString => EmptyString
  | String c tl =>
      let keep := String c (strip_ansi tl) in
      if Ascii.eqb c ESC then
        match tl with
        | String b params =>
            if Ascii.eqb b "[" then
              match (fix skip (t : string) : option string :=
                       match t with
                       | EmptyString => None
                       | String d t' =>
                           if is_digit d || Ascii.eqb d ";" then skip t'
                           else if Ascii.eqb d "m" then Some (strip_ansi t')
                           else None
                       end) params with
              | Some rest => rest
              | None => keep
              end
            else keep
        | EmptyString => keep
        end
      else keep
  end.

(** ["$(printf '%s\n' "${lines[@]}")"]: every line followed by a newline,
    then the newlines at the end removed by the command substitution. *)
Fixpoint strip_trailing_newlines (s : string) : string :=
  match s with
  | EmptyString => EmptyString
  | String c tl =>
      let r := strip_trailing_newlines tl in
      if Ascii.eqb c LF && negb (nonempty r) then EmptyString else String c r
  end.

Fixpoint printf_lines (lines : list string) : string :=
  match lines with
  | [] => EmptyString
  | l :: rest => (l ++ String LF (printf_lines rest))%string
  end.

Definition joined_output (lines : list string) : string :=
  strip_trailing_newlines (printf_lines lines).

(** *** [parse_and_save_output]: the locals of the function *)

Record State := {
  current_tests : list TestCase;
  overall_reason : Status;
  has_tests : bool;
  module_id : string;
  current_test_name : string;
  current_error_details : string;
  in_error_section : bool
}.

Definition initial : State :=
  {| current_tests := [];
     overall_reason := passed;
     has_tests := false;
     module_id := "tests";
     current_test_name := "";
     current_error_details := "";
     in_error_section := false |}.

Definition set_current_tests (v : list TestCase) (st : State) : State :=
  {| current_tests := v; overall_reason := overall_reason st;
     has_tests := has_tests st; module_id := module_id st;
     current_test_name := current_test_name st;
     current_error_details := current_error_details st;
     in_error_section := in_error_section st |}.

Definition set_overall_reason (v : Status) (st : State) : State :=
  {| current_tests := current_tests st; overall_reason := v;
     has_tests := has_tests st; module_id := module_id st;
     current_test_name := current_test_name st;
     current_error_details := current_error_details st;
     in_error_section := in_error_section st |}.

Definition set_has_tests (v : bool) (st : State) : State :=
  {| current_tests := current_tests st; overall_reason := overall_reason st;
     has_tests := v; module_id := module_id st;
     current_test_name := current_test_name st;
     current_error_details := current_error_details st;
     in_error_section := in_error_section st |}.

Definition set_module_id (v : string) (st : State) : State :=
  {| current_tests := current_tests st; overall_reason := overall_reason st;
     has_tests := has_tests st; module_id := v;
     current_test_name := current_test_name st;
     current_error_details := current_error_details st;
     in_error_section := in_error_section st |}.

Definition set_current_test_name (v : string) (st : State) : State :=
  {| current_tests := current_tests st; overall_reason := overall_reason st;
     has_tests := has_tests st; module_id := module_id st;
     current_test_name := v;
     current_error_details := current_error_details st;
     in_error_section := in_error_section st |}.

Definition set_current_error_details (v : string) (st : State) : State :=
  {| current_tests := current_tests st; overall_reason := overall_reason st;
     has_tests := has_tests st; module_id := module_id st;
     current_test_name := current_test_name st;
     current_error_details := v;
     in_error_section := in_error_section st |}.

Definition set_in_error_section (v : bool) (st : State) : State :=
  {| current_tests := current_tests st; overall_reason := overall_reason st;
     has_tests := has_tests st; module_id := module_id st;
     current_test_name := current_test_name st;
     current_error_details := current_error_details st;
     in_error_section := v |}.

(** [current_tests+=(...)] *)
Definition add_test (t : TestCase) (st : State) : State :=
  set_current_tests (current_tests st ++ [t]) st.

(** A failing test waits for its details. *)
Definition pending (st : State) : bool :=
  nonempty (current_test_name st) && in_error_section st.

Definition qualified (st : State) (test_name : string) : string :=
  (module_id st ++ "." ++ test_name)%string.

(** "Save any previous error details": the pending test is stored with
    the details collected so far, none when nothing was collected. *)
Definition save_previous (st : State) : State :=
  if pending st then
    let errors :=
      if nonempty (current_error_details st)
      then [create_test_error (current_error_details st)]
      else [] in
    set_in_error_section false
      (set_current_error_details ""
         (add_test (create_test (current_test_name st)
                                (qualified st (current_test_name st))
                                failed errors) st))
  else st.

(** The branch of a test result line. *)
Definition on_test_line (mark : Mark) (test_name : string) (st : State) : State :=
  let st := save_previous st in
  let st := set_current_test_name test_name (set_has_tests true st) in
  match mark with
  | check =>
      set_current_test_name ""
        (add_test (create_test test_name (qualified st test_name) passed []) st)
  | cross =>
      set_in_error_section true (set_overall_reason failed st)
  end.

(** The branch that collects details; the pieces are joined by the two
    characters backslash and n, which is what "\n" is between double
    quotes. *)
Definition on_detail_line (line : string) (st : State) : State :=
  let clean_line := strip_ansi line in
  if has_content clean_line then
    if nonempty (current_error_details st)
    then set_current_error_details
           (current_error_details st ++ "\n" ++ clean_line)%string st
    else set_current_error_details clean_line st
  else st.

(** The branch of a summary line; the counts are compared as text. *)
Definition on_summary_line (face : Face) (passed_count total : string) (st : State) : State :=
  let sad := match face with crying => true | party => false end in
  if sad || negb (String.eqb passed_count total)
  then set_overall_reason failed st
  else st.

(** The branch of an error line. *)
Definition on_error_line (line : string) (st : State) : State :=
  let st := set_overall_reason failed st in
  if negb (has_tests st) then
    set_has_tests true
      (set_module_id "compilation"
         (add_test (create_test "evaluation" "compilation.evaluation" failed
                                [create_test_error line]) st))
  else st.

(** One turn of the loop over the lines. *)
Definition step (st : State) (line : string) : State :=
  if negb (has_content line) then st
  else if is_warning line then st
  else
    match match_test_line line with
    | Some (mark, test_name) => on_test_line mark test_name st
    | None =>
        if in_error_section st then on_detail_line line st
        else
          match match_summary line with
          | Some (face, passed_count, total) => on_summary_line face passed_count total st
          | None =>
              if is_error_line line then on_error_line line st else st
          end
    end.

Definition scan (lines : list string) : State := fold_left step lines initial.

(** "Handle any remaining failing test". *)
Definition save_remaining (st : State) : State :=
  if pending st then
    let errors :=
      if nonempty (current_error_details st)
      then [create_test_error (current_error_details st)]
      else [create_test_error "Test failed"] in
    add_test (create_test (current_test_name st)
                          (qualified st (current_test_name st))
                          failed errors) st
  else st.

(** "If no tests were found but we have output, create an error module". *)
Definition fold_output (lines : list string) (st : State) : State :=
  if negb (has_tests st) && (0 <? length lines) then
    set_overall_reason failed
      (set_module_id "compilation"
         (add_test (create_test "evaluation" "compilation.evaluation" failed
                                [create_test_error (joined_output lines)]) st))
  else st.

Definition assemble (st : State) : TestResult :=
  let test_modules :=
    if 0 <? length (current_tests st)
    then [create_test_module (module_id st) (current_tests st)]
    else [] in
  create_test_result test_modules (overall_reason st).

(** The document [parse_and_save_output] hands to [save_test_results]. *)
Definition parse_and_save_output (lines : list string) : TestResult :=
  assemble (fold_output lines (save_remaining (scan lines))).

(** *** Main execution: how the lines are captured *)

(** A run of the script: it goes on with a value, or the shell exits. *)
Inductive Script (A : Type) : Type :=
| Continues (a : A)
| Exits (status : nat).
Arguments Continues {A} a.
Arguments Exits {A} status.

(** Line 2 of the script: [set -euo pipefail]. *)
Definition errexit : bool := true.

Definition MAX_OUTPUT_LINES : nat := 100 * 100.

Definition truncation_warning : string := "Warning: Output truncated - too many lines".

(** Standard input as [IFS= read -r line] reads it: the lines that end
    with a newline, for which [read] has status 0, and the text after
    the last newline.  At the end of the input [read] has status 1, also
    when it has read such a text: the loop body never sees it.  The
    shell drops the NUL bytes of what it reads. *)
Fixpoint read_lines (stdin : string) : list string * string :=
  match stdin with
  | EmptyString => ([], EmptyString)
  | String c rest =>
      let (lines, last) := read_lines rest in
      if Ascii.eqb c LF then (EmptyString :: lines, last)
      else if Ascii.eqb c NUL then (lines, last)
      else match lines with
           | first :: others => (String c first :: others, last)
           | [] => ([], String c last)
           end
  end.

(** The [while read] loop of passthrough mode, started with the lines
    that [read] has still to deliver with status 0, [output_lines] and
    [line_count].  [((line_count++))] has status 1
    when the value before the increment is 0; with [e] (errexit) on, a
    command of the loop body that fails ends the script. *)
Fixpoint read_loop (e : bool) (max : nat) (lines output_lines : list string)
    (line_count : nat) : Script (list string * nat) :=
  match lines with
  | [] => Continues (output_lines, line_count)
  | line :: rest =>
      if line_count <? max then
        if e && (line_count =? 0) then Exits 1
        else read_loop e max rest (output_lines ++ [line]) (S line_count)
      else Continues (output_lines, line_count)
  end.

(** The lines kept in passthrough mode, of the [lines] that [read]
    delivers: the loop, then "Warn if output was truncated". *)
Definition capture_passthrough (e : bool) (max : nat) (lines : list string)
  : Script (list string) :=
  match read_loop e max lines [] 0 with
  | Continues (output_lines, line_count) =>
      if max <=? line_count
      then Continues (output_lines ++ [truncation_warning])
      else Continues output_lines
  | Exits status => Exits status
  end.

(** [limit_output]: [head -n "$MAX_OUTPUT_LINES"]. *)
Definition limit_output (max : nat) (output : list string) : list string :=
  firstn max output.

(** The lines kept when the script runs nix-unit itself: [mapfile] reads
    what [limit_output] lets through and succeeds, so the branch after
    [if ! mapfile] is not taken. *)
Definition capture_direct (max : nat) (output : list string) : Script (list string) :=
  Continues (limit_output max output).

(** The captured lines go to the parser.  In passthrough mode they come
    from the bytes of standard input. *)
Definition main_passthrough (max : nat) (stdin : string) : Script TestResult :=
  match capture_passthrough errexit max (fst (read_lines stdin)) with
  | Continues output_lines => Continues (parse_and_save_output output_lines)
  | Exits status => Exits status
  end.

Definition main_direct (max : nat) (output : list string) : Script TestResult :=
  match capture_direct max output with
  | Continues output_lines => Continues (parse_and_save_output output_lines)
  | Exits status => Exits status
  end.

End NixReporter.

(* ================================================================== *)
(** ** The vocabulary of the contract *)

Module Contract.
Import Text JS Schemas.

Definition Severity_eq_dec (a b : Severity) : {a = b} + {a <> b}.
Proof. decide equality. Defined.

(** The number of entries of [issues] with the given severity, counted
    on the list itself. *)
Definition severity_count (sev : Severity) (issues : list LintIssue) : nat :=
  count_occ Severity_eq_dec (map issue_severity issues) sev.

(** The counts of a result agree with its issues. *)
Definition counts_agree (r : LintResult) : Prop :=
  errorCount r = severity_count error (issues r)
  /\ warningCount r = severity_count warning (issues r).

(** A 1-based position. *)
Definition one_based (i : LintIssue) : Prop :=
  (1 <= issue_line i)%Z /\ (1 <= issue_column i)%Z.

(** A 0-based native cursor. *)
Definition zero_based (d : NixfDiagnostic) : Prop :=
  (0 <= line (lCur (range d)))%Z /\ (0 <= column (lCur (range d)))%Z.

(** The clean document: no issue, both counts zero. *)
Definition clean (timestamp : string) (files : list string) : LintResult :=
  {| Schemas.timestamp := timestamp; Schemas.files := files;
     Schemas.issues := []; errorCount := 0; warningCount := 0 |}.

(** A runtime whose [JSON.parse] knows the texts of [table] and throws on
    every other text. *)
Definition table_parser {A : Type} (table : list (string * A)) : JSONParse A :=
  fun text =>
    match find (fun entry => String.eqb (fst entry) text) table with
    | Some entry => Some (snd entry)
    | None => None
    end.

Import NixReporter.

Definition is_failed (t : TestCase) : bool :=
  match state t with failed => true | passed => false end.

Definition failed_reason (s : Status) : bool :=
  match s with failed => true | passed => false end.

(** At least one TestCase of the document has state failed. *)
Definition has_failed_test (r : TestResult) : Prop :=
  exists m t, In m (testModules r) /\ In t (tests m) /\ state t = failed.

(** The document holds the synthetic test of an evaluation failure. *)
Definition has_synthetic_test (r : TestResult) : Prop :=
  exists m t, In m (testModules r) /\ In t (tests m)
              /\ fullName t = "compilation.evaluation".

(** A line that is read (not blank, no warning), is no test line, and is
    a summary with the sad face or with unequal counts, or else, when it
    is no summary, an error line. *)
Definition signals_failure (line : string) : bool :=
  has_content line && negb (is_warning line)
  && match match_test_line line with
     | Some _ => false
     | None =>
         match match_summary line with
         | Some (face, passed_count, total) =>
             match face with crying => true | party => false end
             || negb (String.eqb passed_count total)
         | None => is_error_line line
         end
     end.

(** A line as [read -r] and [mapfile -t] deliver it. *)
Fixpoint newline_free (s : string) : bool :=
  match s with
  | EmptyString => true
  | String c tl => negb (Ascii.eqb c LF) && newline_free tl
  end.

(** The document of an evaluation failure with the given message. *)
Definition evaluation_failure (msg : string) : TestResult :=
  {| testModules :=
       [ {| moduleId := "compilation";
            tests := [ {| name := "evaluation";
                          fullName := "compilation.evaluation";
                          state := failed;
                          errors := [ {| message := msg |} ] |} ] |} ];
     reason := failed |}.

(** The reason after the lines [seen]: failed when a stored test is
    failed, a failing test waits for its details, or a line of [seen]
    signalled a failure; and a test that waits has a name. *)
Definition reason_invariant (seen : list string) (st : State) : Prop :=
  failed_reason (overall_reason st)
  = existsb is_failed (current_tests st) || pending st
    || existsb signals_failure seen
  /\ (in_error_section st = true -> nonempty (current_test_name st) = true).

(** The locals after the lines [seen] when none of them is a test line:
    nothing is stored, or only the evaluation test made from an error
    line of [seen]. *)
Definition evaluation_invariant (seen : list string) (st : State) : Prop :=
  in_error_section st = false
  /\ current_test_name st = ""
  /\ ((has_tests st = false /\ current_tests st = [])
      \/ (has_tests st = true /\ module_id st = "compilation"
          /\ overall_reason st = failed
          /\ exists l, In l seen /\ is_error_line l = true
               /\ current_tests st
                  = [create_test "evaluation" "compilation.evaluation" failed
                                 [create_test_error l]])).

End Contract.

(* ================================================================== *)
(** ** Sample data *)

Module Samples.
Import Text JS Schemas.

Definition suggestion_at (from to : Z) (note : string) : StatixSuggestion :=
  {| at_from := from; at_to := to; suggestion_note := note; suggestion_fix := None |}.

(** The report of the adapter's own test: a warning at offset 10. *)
Definition inherit_report : StatixReport :=
  {| report_file := "/path/to/test.nix";
     report_kind := "warn";
     report_note := "Found issue [W04]: manual inherit";
     suggestions := [suggestion_at 10 20 "manual inherit [W04]"] |}.

(** A report whose suggestion starts at the first character of the file. *)
Definition head_report : StatixReport :=
  {| report_file := "/path/to/head.nix";
     report_kind := "error";
     report_note := "Found critical issue [E01]: syntax error";
     suggestions := [suggestion_at 0 5 "syntax error [E01]"] |}.

(** Two texts stand for the JSON lines of the two reports; [{}] is valid
    JSON and no report. *)
Definition statix_runtime : JSONParse Statix.Parsed :=
  Contract.table_parser [("{inherit_report}", Statix.ParsedReport inherit_report);
                         ("{head_report}", Statix.ParsedReport head_report);
                         ("{}", Statix.ParsedOther)].

Definition cursor (l c o : Z) : NixfCursor := {| line := l; column := c; offset := o |}.

(** The diagnostic of the adapter's own test: line 2, column 4. *)
Definition unused_diagnostic : NixfDiagnostic :=
  {| args := ["unusedVar"];
     kind := 42%Z;
     message := "unused variable `{}`";
     range := {| lCur := cursor 2 4 25; rCur := cursor 2 13 34 |};
     severity := 2%Z;
     sname := "sema-unused-binding" |}.

Definition nixf_runtime : JSONParse NixfTidy.Parsed :=
  Contract.table_parser [("[unused_diagnostic]", NixfTidy.ParsedArray [unused_diagnostic])].

(** An exec error with the given stdout. *)
Definition exec_error (out : string) : Statix.Thrown :=
  Statix.ThrownObject {| Statix.error_message := "Command failed";
                         Statix.error_stdout := Some (Some out) |}.

(** An error raised without a stdout property. *)
Definition foreign_error : Statix.Thrown :=
  Statix.ThrownObject {| Statix.error_message := "Different error";
                         Statix.error_stdout := None |}.

(** The outputs of nix-unit the script keeps as samples of the format. *)
Definition passing_output : list string :=
  ["✅ testBasicMath"; "✅ testBooleanLogic"; "✅ testListLength";
   "✅ testStringConcatenation"; "";
   "🎉 4/4 successful";
   "warning: unknown setting 'allowed-users'"].

Definition quoted (s : string) : string :=
  (String "034"%char s ++ String "034"%char "")%string.

Definition diff_line : string :=
  ("1 " ++ quoted "helloworld" ++ "                1 " ++ quoted "hello world")%string.

Definition failing_output : list string :=
  ["❌ testBasicMath"; "/tmp/nix-123/expected.nix --- Nix";
   "1 5                           1 6"; "";
   "❌ testStringConcatenation"; "/tmp/nix-456/expected.nix --- Nix";
   diff_line; "";
   "😢 0/2 successful"; "error: Tests failed"].

Definition error_output : list string :=
  ["error: syntax error, unexpected IN_KW";
   "at /path/to/tests.nix:8:20:";
   "    7|   testWithBadSyntax = {";
   "    8|     expr = let x = in x;";
   "     |                    ^"].

End Samples.

(* ================================================================== *)
(** ** reporters/nix/src/tdd-guard-nix.sh: the command line *)

Module NixCli.
Import Text.

(** The variables the argument loop sets. *)
Record Settings := {
  PROJECT_ROOT : string;
  PASSTHROUGH : bool;
  TEST_FILE : string;
  MAX_EXECUTION_TIME : string;
  MAX_OUTPUT_LINES : string;
  TEST_ARGS : list string
}.

(** "Configuration constants" and "Default values". *)
Definition defaults : Settings :=
  {| PROJECT_ROOT := ""; PASSTHROUGH := false; TEST_FILE := "";
     MAX_EXECUTION_TIME := "300"; MAX_OUTPUT_LINES := "10000";
     TEST_ARGS := [] |}.

Definition set_PROJECT_ROOT (v : string) (s : Settings) : Settings :=
  {| PROJECT_ROOT := v; PASSTHROUGH := PASSTHROUGH s; TEST_FILE := TEST_FILE s;
     MAX_EXECUTION_TIME := MAX_EXECUTION_TIME s;
     MAX_OUTPUT_LINES := MAX_OUTPUT_LINES s; TEST_ARGS := TEST_ARGS s |}.

Definition set_PASSTHROUGH (v : bool) (s : Settings) : Settings :=
  {| PROJECT_ROOT := PROJECT_ROOT s; PASSTHROUGH := v; TEST_FILE := TEST_FILE s;
     MAX_EXECUTION_TIME := MAX_EXECUTION_TIME s;
     MAX_OUTPUT_LINES := MAX_OUTPUT_LINES s; TEST_ARGS := TEST_ARGS s |}.

Definition set_TEST_FILE (v : string) (s : Settings) : Settings :=
  {| PROJECT_ROOT := PROJECT_ROOT s; PASSTHROUGH := PASSTHROUGH s; TEST_FILE := v;
     MAX_EXECUTION_TIME := MAX_EXECUTION_TIME s;
     MAX_OUTPUT_LINES := MAX_OUTPUT_LINES s; TEST_ARGS := TEST_ARGS s |}.

Definition set_MAX_EXECUTION_TIME (v : string) (s : Settings) : Settings :=
  {| PROJECT_ROOT := PROJECT_ROOT s; PASSTHROUGH := PASSTHROUGH s;
     TEST_FILE := TEST_FILE s; MAX_EXECUTION_TIME := v;
     MAX_OUTPUT_LINES := MAX_OUTPUT_LINES s; TEST_ARGS := TEST_ARGS s |}.

Definition set_MAX_OUTPUT_LINES (v : string) (s : Settings) : Settings :=
  {| PROJECT_ROOT := PROJECT_ROOT s; PASSTHROUGH := PASSTHROUGH s;
     TEST_FILE := TEST_FILE s; MAX_EXECUTION_TIME := MAX_EXECUTION_TIME s;
     MAX_OUTPUT_LINES := v; TEST_ARGS := TEST_ARGS s |}.

(** [TEST_ARGS+=("$arg")] *)
Definition add_TEST_ARG (v : string) (s : Settings) : Settings :=
  {| PROJECT_ROOT := PROJECT_ROOT s; PASSTHROUGH := PASSTHROUGH s;
     TEST_FILE := TEST_FILE s; MAX_EXECUTION_TIME := MAX_EXECUTION_TIME s;
     MAX_OUTPUT_LINES := MAX_OUTPUT_LINES s; TEST_ARGS := TEST_ARGS s ++ [v] |}.

(** [shift]: it fails when no positional parameter is left, and under
    errexit the failure ends the script. *)
Definition shift (positional : list string) : NixReporter.Script (list string) :=
  match positional with
  | [] => NixReporter.Exits 1
  | _ :: rest => NixReporter.Continues rest
  end.

(** [for arg in "$@"; do case $arg in ... esac; done].  The words of the
    loop are fixed when it starts; [positional] is what [shift] works
    on and ["$1"] reads.  An unset ["$1"] ends the script (nounset). *)
Fixpoint arg_loop (args positional : list string) (s : Settings)
  : NixReporter.Script Settings :=
  match args with
  | [] => NixReporter.Continues s
  | arg :: rest =>
      let shift_then (s' : Settings) :=
        match shift positional with
        | NixReporter.Continues p => arg_loop rest p s'
        | NixReporter.Exits n => NixReporter.Exits n
        end in
      match strip_prefix "--project-root=" arg with
      | Some v => shift_then (set_PROJECT_ROOT v s)
      | None =>
      if String.eqb arg "--project-root" then
        match shift positional with
        | NixReporter.Exits n => NixReporter.Exits n
        | NixReporter.Continues [] => NixReporter.Exits 1
        | NixReporter.Continues (v :: p) => arg_loop rest p (set_PROJECT_ROOT v s)
        end
      else if String.eqb arg "--passthrough" then shift_then (set_PASSTHROUGH true s)
      else
      match strip_prefix "--test-file=" arg with
      | Some v => shift_then (set_TEST_FILE v s)
      | None =>
      match strip_prefix "--timeout=" arg with
      | Some v => shift_then (set_MAX_EXECUTION_TIME v s)
      | None =>
      match strip_prefix "--max-output=" arg with
      | Some v => shift_then (set_MAX_OUTPUT_LINES v s)
      | None =>
      if String.eqb arg "--help" then NixReporter.Exits 0
      else shift_then (add_TEST_ARG arg s)
      end end end end
  end.

(** The loop on the arguments of the script. *)
Definition parse_arguments (args : list string) : NixReporter.Script Settings :=
  arg_loop args args defaults.

(** [^[0-9]+$] *)
Fixpoint all_digits (s : string) : bool :=
  match s with
  | EmptyString => true
  | String c tl => is_digit c && all_digits tl
  end.

Definition is_count (s : string) : bool := nonempty s && all_digits s.

(** Shell arithmetic is 64-bit and wraps around. *)
Definition wrap64 (v : Z) : Z := ((v + 2 ^ 63) mod 2 ^ 64 - 2 ^ 63)%Z.

Definition digit_of (c : ascii) : Z := (Z.of_nat (nat_of_ascii c) - 48)%Z.

(** The value of a string of digits in [base]; none when a digit is too
    great for the base. *)
Fixpoint digits_value (base acc : Z) (s : string) : option Z :=
  match s with
  | EmptyString => Some acc
  | String c tl =>
      if (digit_of c <? base)%Z
      then digits_value base (wrap64 (acc * base + digit_of c)) tl
      else None
  end.

(** A string of digits as an arithmetic constant: a leading 0 makes it
    octal. *)
Definition arith_constant (s : string) : option Z :=
  match s with
  | String c tl =>
      if Ascii.eqb c "0" then digits_value 8 0 tl else digits_value 10 0 s
  | EmptyString => Some 0%Z
  end.

(** [[[ "$v" -le 0 ]]]; a constant that is in error makes the test fail. *)
Definition le_zero (v : string) : bool :=
  match arith_constant v with
  | Some n => (n <=? 0)%Z
  | None => false
  end.

(** [! [[ "$v" =~ ^[0-9]+$ ]] || [[ "$v" -le 0 ]]] *)
Definition bad_count (v : string) : bool := negb (is_count v) || le_zero v.

(** "Validate project root" and "Validate timeout and resource limits";
    [is_directory] is the test [-d] on the file system. *)
Definition validate (is_directory : string -> bool) (s : Settings)
  : NixReporter.Script Settings :=
  if negb (nonempty (PROJECT_ROOT s)) then NixReporter.Exits 1
  else if negb (starts_with "/" (PROJECT_ROOT s)) then NixReporter.Exits 1
  else if negb (is_directory (PROJECT_ROOT s)) then NixReporter.Exits 1
  else if bad_count (MAX_EXECUTION_TIME s) then NixReporter.Exits 1
  else if bad_count (MAX_OUTPUT_LINES s) then NixReporter.Exits 1
  else NixReporter.Continues s.

(** The script up to "Main execution". *)
Definition startup (is_directory : string -> bool) (args : list string)
  : NixReporter.Script Settings :=
  match parse_arguments args with
  | NixReporter.Continues s => validate is_directory s
  | NixReporter.Exits n => NixReporter.Exits n
  end.

End NixCli.

(* ================================================================== *)
(** ** More vocabulary *)

Module Facts.
Import Text JS Schemas NixReporter.

(** A rule code: a capital letter and at least one digit. *)
Definition rule_code (r : string) : bool :=
  match r with
  | String c ds => is_upper c && nonempty ds && NixCli.all_digits ds
  | EmptyString => false
  end.

Definition bracketed (r : string) : string := ("[" ++ r ++ "]")%string.

(** The pattern of [extractRuleFromMessage] tried right after a '['. *)
Definition rule_after_bracket (s : string) : option string :=
  match s with
  | String c tl =>
      if is_upper c then
        match take_digits tl with
        | (String d ds, String close _) =>
            if Ascii.eqb close "]" then Some (String c (String d ds)) else None
        | _ => None
        end
      else None
  | EmptyString => None
  end.

(** No character of [s] is [c]. *)
Fixpoint free_of (c : ascii) (s : string) : bool :=
  match s with
  | EmptyString => true
  | String d tl => negb (Ascii.eqb d c) && free_of c tl
  end.

(** The parameter characters of a colour sequence: digits and ';'. *)
Fixpoint colour_params (s : string) : bool :=
  match s with
  | EmptyString => true
  | String c tl => (is_digit c || Ascii.eqb c ";") && colour_params tl
  end.

(** The diagnostics [lintFile] resolves with for a file, none when it
    rejects. *)
Definition fileDiagnostics {parser : JSONParse NixfTidy.Parsed}
    (spawn : string -> NixfTidy.Spawned) (filePath : string) : list NixfDiagnostic :=
  match NixfTidy.lintFile filePath (spawn filePath) with
  | Returned diagnostics => diagnostics
  | Raised _ => []
  end.

(** A word: not empty, without a space character. *)
Fixpoint no_space (s : string) : bool :=
  match s with
  | EmptyString => true
  | String c tl => negb (is_space c) && no_space tl
  end.

Definition word (s : string) : bool := nonempty s && no_space s.

(** A run of space characters, not empty. *)
Definition blank_run (s : string) : bool := nonempty s && all_space s.

(** A text that is empty or starts with a space character. *)
Definition ends_word (s : string) : bool :=
  match s with
  | EmptyString => true
  | String c _ => is_space c
  end.

Definition glyph_of (mark : Mark) : string :=
  match mark with check => "✅" | cross => "❌" end.

Definition face_of (face : Face) : string :=
  match face with party => "🎉" | crying => "😢" end.

(** A line the loop reads: not blank and no warning. *)
Definition readable (line : string) : bool :=
  has_content line && negb (is_warning line).

(** The test lines of the input, in order. *)
Definition test_lines (lines : list string) : list (Mark * string) :=
  flat_map (fun l => match match_test_line l with
                     | Some p => [p]
                     | None => []
                     end) lines.

Definition status_of (mark : Mark) : Status :=
  match mark with check => passed | cross => failed end.

(** Name and state of each test. *)
Definition outline (ts : list TestCase) : list (string * Status) :=
  map (fun t => (name t, state t)) ts.

(** All tests of a document. *)
Definition document_tests (r : TestResult) : list TestCase :=
  flat_map tests (testModules r).

(** The evaluation test with some message, or nothing. *)
Definition evaluation_tests (ts : list TestCase) : Prop :=
  ts = [] \/ exists msg,
    ts = [create_test "evaluation" "compilation.evaluation" failed
                      [create_test_error msg]].

(** A line that takes the error branch when no failing test waits. *)
Definition reaches_error (line : string) : bool :=
  readable line
  && match match_test_line line, match_summary line with
     | None, None => is_error_line line
     | _, _ => false
     end.

(** The details collected from the lines after a failing test. *)
Definition collected (details : list string) : list string :=
  filter has_content (map strip_ansi (filter readable details)).

(** The pieces joined by backslash and n. *)
Fixpoint join_details (acc : string) (pieces : list string) : string :=
  match pieces with
  | [] => acc
  | p :: rest =>
      join_details (if nonempty acc then (acc ++ "\n" ++ p)%string else p) rest
  end.

Definition failure_message (details : list string) : string :=
  match collected details with
  | [] => "Test failed"
  | pieces => join_details "" pieces
  end.

(** A well-formed test of the document. *)
Definition well_formed_test (t : TestCase) : Prop :=
  name t <> ""
  /\ (fullName t = ("tests." ++ name t)%string
      \/ fullName t = ("compilation." ++ name t)%string)
  /\ (state t = passed -> errors t = [])
  /\ length (errors t) <= 1.

(** What the scanner keeps about the tests after the lines [seen]: the
    stored tests are an evaluation test or nothing, then one test per
    test line; the last one may still wait for its details. *)
Definition tests_invariant (seen : list string) (st : State) : Prop :=
  exists synthetic rest,
    current_tests st = synthetic ++ rest
    /\ evaluation_tests synthetic
    /\ outline rest
       ++ (if pending st then [(current_test_name st, failed)] else [])
       = map (fun p => (snd p, status_of (fst p))) (test_lines seen)
    /\ (has_tests st = false -> current_tests st = [] /\ pending st = false)
    /\ (has_tests st = true -> current_tests st <> [] \/ pending st = true)
    /\ (module_id st = "tests" \/ module_id st = "compilation")
    /\ Forall well_formed_test (current_tests st)
    /\ (in_error_section st = false -> current_error_details st = "")
    /\ (in_error_section st = true -> nonempty (current_test_name st) = true).

(** What follows a colour sequence whose parameters start [t]: the text
    after the closing m, when there is one. *)
Fixpoint colour_end (t : string) : option string :=
  match t with
  | EmptyString => None
  | String d t' =>
      if is_digit d || Ascii.eqb d ";" then colour_end t'
      else if Ascii.eqb d "m" then Some t' else None
  end.

(** A branch of the loop that ends with [shift]: the loop goes on with
    the settings [s], or the script exits when nothing is left to
    shift. *)
Definition after_shift (rest positional : list string) (s : NixCli.Settings)
  : Script NixCli.Settings :=
  match NixCli.shift positional with
  | Continues p => NixCli.arg_loop rest p s
  | Exits n => Exits n
  end.

(** An argument one of the option patterns of the loop takes. *)
Definition is_option (arg : string) : bool :=
  starts_with "--project-root=" arg || String.eqb arg "--passthrough"
  || starts_with "--test-file=" arg || starts_with "--timeout=" arg
  || starts_with "--max-output=" arg.

(** The value of the last argument that starts with [prefix], [default]
    when there is none. *)
Definition last_value (prefix default : string) (args : list string) : string :=
  fold_left (fun acc arg => match strip_prefix prefix arg with
                            | Some v => v
                            | None => acc
                            end) args default.

(** The settings after the arguments [args], starting from [s]: every
    valued option holds the value of its last occurrence, the flag is
    set when it occurs, and the other arguments are kept in order. *)
Definition settled (s : NixCli.Settings) (args : list string) : NixCli.Settings :=
  {| NixCli.PROJECT_ROOT := last_value "--project-root=" (NixCli.PROJECT_ROOT s) args;
     NixCli.PASSTHROUGH :=
       NixCli.PASSTHROUGH s || existsb (fun a => String.eqb a "--passthrough") args;
     NixCli.TEST_FILE := last_value "--test-file=" (NixCli.TEST_FILE s) args;
     NixCli.MAX_EXECUTION_TIME :=
       last_value "--timeout=" (NixCli.MAX_EXECUTION_TIME s) args;
     NixCli.MAX_OUTPUT_LINES :=
       last_value "--max-output=" (NixCli.MAX_OUTPUT_LINES s) args;
     NixCli.TEST_ARGS :=
       NixCli.TEST_ARGS s ++ filter (fun a => negb (is_option a)) args |}.

(** The number a string of digits writes in base ten. *)
Fixpoint decimal_value (acc : Z) (s : string) : Z :=
  match s with
  | EmptyString => acc
  | String c tl => decimal_value (acc * 10 + NixCli.digit_of c)%Z tl
  end.

(** Some character of [s] is the digit 8 or 9. *)
Fixpoint has_high_digit (s : string) : bool :=
  match s with
  | EmptyString => false
  | String c tl => (8 <=? NixCli.digit_of c)%Z || has_high_digit tl
  end.

End Facts.

(* ================================================================== *)
(** ** Properties of the lint adapters *)

Section LintAdapters.
Import Text JS Schemas Contract.

Lemma filter_length_count (sev : Severity) (l : list LintIssue) :
  length (filter (fun i => Severity_eqb (issue_severity i) sev) l)
  = severity_count sev l.
Proof.
  unfold severity_count.
  induction l as [|i l IH]; simpl; [reflexivity|].
  destruct (Severity_eq_dec (issue_severity i) sev) as [E|E].
  - rewrite E. destruct sev; simpl; now rewrite IH.
  - destruct (issue_severity i), sev; simpl; congruence.
Qed.

Lemma createLintData_counts timestamp files results :
  counts_agree (Statix.createLintData timestamp files results).
Proof.
  split; simpl; unfold Statix.countBySeverity; apply filter_length_count.
Qed.

(** A returned Statix result is [createLintData] of the reports parsed
    from the error's stdout, or of no report. *)
Lemma Statix_lint_returned {parser : JSONParse Statix.Parsed}
    timestamp filePaths configPath run r :
  Statix.lint timestamp filePaths configPath run = Returned r ->
  exists results, r = Statix.createLintData timestamp filePaths results
    /\ (results = []
        \/ exists thrown, run (Statix.buildArgs filePaths configPath) = Statix.Rejected thrown
             /\ Statix.isExecError thrown = true
             /\ Statix.asReports (Statix.parseResults (Statix.stdout_of thrown))
                = Some results).
Proof.
  unfold Statix.lint.
  destruct (run _) as [out err|thrown] eqn:Hrun.
  - intros [= <-]. exists []. split; [reflexivity | now left].
  - destruct (Statix.isExecError thrown) eqn:Hexec; simpl; [|discriminate].
    destruct (Statix.asReports _) as [reports|] eqn:Hread; [|discriminate].
    intros [= <-]. exists reports. split; [reflexivity|].
    right. exists thrown. auto.
Qed.

(** Reading the parsed values fails exactly when one of them is no
    report. *)
Lemma asReports_fails results :
  Statix.asReports results = None <-> In Statix.ParsedOther results.
Proof.
  induction results as [|[report|] rest IH]; simpl.
  - split; [discriminate | contradiction].
  - destruct (Statix.asReports rest).
    + split; [discriminate|]. intros [H|H]; [discriminate|].
      apply IH in H. discriminate.
    + split; [intros _; right; now apply IH | reflexivity].
  - split; [now left | reflexivity].
Qed.

(** The loop of [NixfTidy.lint] appends, file after file, the issues of
    the files whose [lintFile] resolves. *)
Lemma lintOne_app {parser : JSONParse NixfTidy.Parsed} spawn issues filePath :
  NixfTidy.lintOne spawn issues filePath = issues ++ NixfTidy.fileIssues spawn filePath.
Proof.
  unfold NixfTidy.fileIssues, NixfTidy.lintOne.
  destruct (NixfTidy.lintFile _ _); simpl; [reflexivity | now rewrite app_nil_r].
Qed.

Lemma lint_loop_flat_map {parser : JSONParse NixfTidy.Parsed} spawn filePaths issues :
  fold_left (NixfTidy.lintOne spawn) filePaths issues
  = issues ++ flat_map (NixfTidy.fileIssues spawn) filePaths.
Proof.
  revert issues.
  induction filePaths as [|f fs IH]; intros issues; simpl.
  - now rewrite app_nil_r.
  - rewrite IH, lintOne_app, app_assoc. reflexivity.
Qed.

Lemma NixfTidy_lint_returned {parser : JSONParse NixfTidy.Parsed}
    timestamp filePaths spawn r :
  NixfTidy.lint timestamp filePaths spawn = Returned r ->
  Schemas.timestamp r = timestamp /\ files r = filePaths
  /\ issues r = flat_map (NixfTidy.fileIssues spawn) filePaths
  /\ counts_agree r.
Proof.
  unfold NixfTidy.lint. intros [= <-]. simpl.
  rewrite lint_loop_flat_map. simpl.
  repeat split; unfold NixfTidy.countBySeverity; apply filter_length_count.
Qed.

(** C1.  Every LintResult that [Statix.lint] or [NixfTidy.lint] returns
    has [errorCount] equal to the number of its issues of severity error
    and [warningCount] equal to the number of its issues of severity
    warning. *)
Theorem lint_counts_match_issues :
  (forall (parser : JSONParse Statix.Parsed) timestamp filePaths configPath run r,
      Statix.lint timestamp filePaths configPath run = Returned r ->
      errorCount r = severity_count error (issues r)
      /\ warningCount r = severity_count warning (issues r))
  /\ (forall (parser : JSONParse NixfTidy.Parsed) timestamp filePaths spawn r,
      NixfTidy.lint timestamp filePaths spawn = Returned r ->
      errorCount r = severity_count error (issues r)
      /\ warningCount r = severity_count warning (issues r)).
Proof.
  split.
  - intros parser timestamp filePaths configPath run r H.
    destruct (Statix_lint_returned _ _ _ _ _ H) as (results & -> & _).
    apply createLintData_counts.
  - intros parser timestamp filePaths spawn r H.
    apply (NixfTidy_lint_returned _ _ _ _ H).
Qed.

End LintAdapters.

Section Positions.
Import Text JS Schemas Contract.

Lemma toIssue_position report suggestion :
  issue_line (Statix.toIssue report suggestion) = 1%Z
  /\ issue_column (Statix.toIssue report suggestion) = at_from suggestion.
Proof. split; reflexivity. Qed.

Lemma extractIssues_lines results :
  Forall (fun i => issue_line i = 1%Z) (Statix.extractIssues results).
Proof.
  unfold Statix.extractIssues.
  apply Forall_forall. intros i Hi.
  apply in_flat_map in Hi. destruct Hi as (report & _ & Hi).
  apply in_map_iff in Hi. destruct Hi as (s & <- & _). reflexivity.
Qed.

Lemma extractIssues_columns results :
  map issue_column (Statix.extractIssues results)
  = map at_from (flat_map suggestions results).
Proof.
  unfold Statix.extractIssues.
  induction results as [|report results IH]; simpl; [reflexivity|].
  rewrite !map_app, IH, map_map. reflexivity.
Qed.

Lemma convert_positions filePath diagnostics :
  map (fun i => (issue_line i, issue_column i))
      (NixfTidy.convertDiagnosticsToIssues filePath diagnostics)
  = map (fun d => ((line (lCur (range d)) + 1)%Z, (column (lCur (range d)) + 1)%Z))
        diagnostics.
Proof.
  unfold NixfTidy.convertDiagnosticsToIssues. rewrite map_map. reflexivity.
Qed.

Lemma convert_one_based filePath diagnostics :
  Forall zero_based diagnostics ->
  Forall one_based (NixfTidy.convertDiagnosticsToIssues filePath diagnostics).
Proof.
  unfold NixfTidy.convertDiagnosticsToIssues.
  induction 1 as [|d ds [Hl Hc] _ IH]; simpl; constructor; [|exact IH].
  split; simpl; lia.
Qed.

(** C4.  The nixf-tidy normaliser sends every native 0-based
    (line, column) to (line + 1, column + 1), so native (0, 4) becomes
    (1, 5); every issue the Statix adapter builds has line 1, whatever
    the character offsets of the report. *)
Theorem position_normalization :
  (forall filePath diagnostics,
      map (fun i => (issue_line i, issue_column i))
          (NixfTidy.convertDiagnosticsToIssues filePath diagnostics)
      = map (fun d => ((line (lCur (range d)) + 1)%Z,
                       (column (lCur (range d)) + 1)%Z)) diagnostics)
  /\ (forall filePath a k m s n o right,
      map (fun i => (issue_line i, issue_column i))
          (NixfTidy.convertDiagnosticsToIssues filePath
             [ {| args := a; kind := k; message := m;
                  range := {| lCur := {| column := 4; line := 0; offset := o |};
                              rCur := right |};
                  severity := s; sname := n |} ])
      = [(1%Z, 5%Z)])
  /\ (forall timestamp filePaths results,
      Forall (fun i => issue_line i = 1%Z)
             (issues (Statix.createLintData timestamp filePaths results))).
Proof.
  split; [exact convert_positions|].
  split; [reflexivity|].
  intros. simpl. apply extractIssues_lines.
Qed.

(** C5, as the code has it.  An issue of [NixfTidy.lint] is 1-based
    whenever the cursors the tool printed are 0-based.  An issue of
    [Statix.lint] has line 1, and its column is the character offset
    [at.from] of its suggestion, unchanged. *)
Theorem emitted_positions :
  (forall (parser : JSONParse NixfTidy.Parsed) timestamp filePaths spawn r,
      NixfTidy.lint timestamp filePaths spawn = Returned r ->
      (forall f diagnostics, In f filePaths ->
          NixfTidy.lintFile f (spawn f) = Returned diagnostics ->
          Forall zero_based diagnostics) ->
      Forall one_based (issues r))
  /\ (forall (parser : JSONParse Statix.Parsed) timestamp filePaths configPath run r,
      Statix.lint timestamp filePaths configPath run = Returned r ->
      exists results,
        Forall (fun i => issue_line i = 1%Z) (issues r)
        /\ map issue_column (issues r) = map at_from (flat_map suggestions results)
        /\ r = Statix.createLintData timestamp filePaths results).
Proof.
  split.
  - intros parser timestamp filePaths spawn r H Hnative.
    destruct (NixfTidy_lint_returned _ _ _ _ H) as (_ & _ & -> & _).
    apply Forall_forall. intros i Hi.
    apply in_flat_map in Hi. destruct Hi as (f & Hf & Hi).
    unfold NixfTidy.fileIssues, NixfTidy.lintOne in Hi.
    destruct (NixfTidy.lintFile f (spawn f)) as [ds|e] eqn:Hrun; [|contradiction].
    simpl in Hi.
    pose proof (convert_one_based f ds (Hnative f ds Hf Hrun)) as Hall.
    rewrite Forall_forall in Hall. now apply Hall.
  - intros parser timestamp filePaths configPath run r H.
    destruct (Statix_lint_returned _ _ _ _ _ H) as (results & -> & _).
    exists results. simpl.
    split; [apply extractIssues_lines|].
    split; [apply extractIssues_columns | reflexivity].
Qed.

End Positions.

Section Failures.
Import Text JS Schemas Contract.

Lemma parseLines_fails {parser : JSONParse Statix.Parsed} lines l :
  In l lines -> JSON_parse l = None -> Statix.parseLines lines = None.
Proof.
  induction lines as [|x xs IH]; simpl; [contradiction|].
  intros [->|Hin] Hfail.
  - now rewrite Hfail.
  - destruct (JSON_parse x); [|reflexivity].
    now rewrite (IH Hin Hfail).
Qed.

Lemma parseResults_fails {parser : JSONParse Statix.Parsed} out l :
  In l (Statix.outputLines out) -> JSON_parse l = None ->
  Statix.parseResults (Some out) = [].
Proof.
  intros Hin Hfail. unfold Statix.parseResults.
  destruct (negb (truthy (trim out))); [reflexivity|].
  now rewrite (parseLines_fails _ _ Hin Hfail).
Qed.

(** When [Statix.lint] throws. *)
Lemma Statix_lint_raised {parser : JSONParse Statix.Parsed}
    timestamp filePaths configPath run thrown :
  Statix.lint timestamp filePaths configPath run = Raised thrown
  <-> exists rejected,
        run (Statix.buildArgs filePaths configPath) = Statix.Rejected rejected
        /\ ((Statix.isExecError rejected = false /\ thrown = rejected)
            \/ (Statix.isExecError rejected = true
                /\ In Statix.ParsedOther
                      (Statix.parseResults (Statix.stdout_of rejected))
                /\ thrown = Statix.ThrownTypeError)).
Proof.
  unfold Statix.lint.
  destruct (run _) as [out err|t].
  - split; [discriminate | intros (rejected & [=] & _)].
  - destruct (Statix.isExecError t) eqn:Hexec; simpl.
    + destruct (Statix.asReports _) as [reports|] eqn:Hread.
      * split; [discriminate|].
        intros (rejected & [= <-] & [(H & _)|(_ & Hin & _)]); [congruence|].
        apply asReports_fails in Hin. congruence.
      * split.
        -- intros [= <-]. exists t. split; [reflexivity|]. right.
           split; [exact Hexec|]. split; [now apply asReports_fails | reflexivity].
        -- intros (rejected & [= <-] & [(H & _)|(_ & _ & ->)]); [congruence | reflexivity].
    + split.
      * intros [= <-]. exists t. split; [reflexivity|]. now left.
      * intros (rejected & [= <-] & [(_ & ->)|(H & _)]); [reflexivity | congruence].
Qed.

(** Every rejection of [execFileAsync] carries a stdout. *)
Lemma execFileAsync_attaches_stdout process rejected :
  Statix.execFileAsync process = Statix.Rejected rejected ->
  Statix.isExecError rejected = true.
Proof.
  destruct process; simpl; [discriminate| |]; now intros [= <-].
Qed.

(** A file whose [lintFile] rejects adds nothing. *)
Lemma rejected_file_adds_nothing {parser : JSONParse NixfTidy.Parsed} spawn f e :
  NixfTidy.lintFile f (spawn f) = Raised e -> NixfTidy.fileIssues spawn f = [].
Proof.
  intros H. unfold NixfTidy.fileIssues, NixfTidy.lintOne. now rewrite H.
Qed.

Lemma unparsable_file_rejected {parser : JSONParse NixfTidy.Parsed} f code out err :
  JSON_parse out = None ->
  NixfTidy.lintFile f (NixfTidy.Closes code out err) = Returned []
  \/ exists e, NixfTidy.lintFile f (NixfTidy.Closes code out err) = Raised e.
Proof.
  intros Hfail. simpl.
  destruct (_ && truthy err); [right; eauto|].
  destruct (negb (truthy (trim out))); [now left|].
  rewrite Hfail. right; eauto.
Qed.

Lemma unparsable_file_adds_nothing {parser : JSONParse NixfTidy.Parsed}
    spawn f code out err :
  spawn f = NixfTidy.Closes code out err -> JSON_parse out = None ->
  NixfTidy.fileIssues spawn f = [].
Proof.
  intros Hrun Hfail.
  destruct (unparsable_file_rejected f code out err Hfail) as [H|[e H]];
    unfold NixfTidy.fileIssues, NixfTidy.lintOne; rewrite Hrun, H; reflexivity.
Qed.

(** C6.  When a line of the stdout carried by a Statix exec error does
    not parse, [Statix.lint] returns the clean document and does not
    throw.  When the stdout of the nixf-tidy child of a file does not
    parse, [NixfTidy.lint] returns; that file adds no issue, the issues
    are those of the other files, and a run over that file alone gives
    the clean document. *)
Theorem malformed_output_degrades :
  (forall (parser : JSONParse Statix.Parsed) timestamp filePaths configPath run e out l,
      run (Statix.buildArgs filePaths configPath) = Statix.Rejected (Statix.ThrownObject e) ->
      Statix.error_stdout e = Some (Some out) ->
      In l (Statix.outputLines out) -> JSON_parse l = None ->
      Statix.lint timestamp filePaths configPath run = Returned (clean timestamp filePaths))
  /\ (forall (parser : JSONParse NixfTidy.Parsed) timestamp before f after spawn code out err,
      spawn f = NixfTidy.Closes code out err -> JSON_parse out = None ->
      NixfTidy.lint timestamp [f] spawn = Returned (clean timestamp [f])
      /\ exists r,
           NixfTidy.lint timestamp (before ++ f :: after) spawn = Returned r
           /\ issues r = flat_map (NixfTidy.fileIssues spawn) before
                         ++ flat_map (NixfTidy.fileIssues spawn) after).
Proof.
  split.
  - intros parser timestamp filePaths configPath run e out l Hrun Hout Hin Hfail.
    unfold Statix.lint, Statix.isExecError, Statix.stdout_of.
    rewrite Hrun, Hout. simpl negb. cbv iota.
    now rewrite (parseResults_fails out l Hin Hfail).
  - intros parser timestamp before f after spawn code out err Hrun Hfail.
    pose proof (unparsable_file_adds_nothing spawn f code out err Hrun Hfail) as Hnone.
    split.
    + unfold NixfTidy.lint. rewrite lint_loop_flat_map. simpl.
      now rewrite Hnone.
    + eexists. split; [reflexivity|]. simpl.
      rewrite lint_loop_flat_map, flat_map_app. simpl.
      now rewrite Hnone.
Qed.

(** C10.  When one of the lines Statix printed does not parse,
    [parseResults] gives the empty list: the reports of the lines that
    do parse are dropped with it. *)
Theorem statix_parse_all_or_nothing :
  forall (parser : JSONParse Statix.Parsed) out l,
    In l (Statix.outputLines out) -> JSON_parse l = None ->
    Statix.parseResults (Some out) = [].
Proof.
  intros parser out l. apply parseResults_fails.
Qed.

(** C7, as the code has it.  [Statix.lint] throws in two cases only:
    the process runner rejects with a value that has no [stdout]
    property, and [lint] throws that value again; or the rejection
    carries a stdout whose lines all parse, one of them to a value that
    is no report, and the read of it throws a TypeError.  A statix
    process that cannot be spawned is neither: [execFileAsync] rejects
    with the empty [stdout] added to the error, and [lint] returns the
    clean document; whatever [execFile] reports of the process, nothing
    but the TypeError leaves [lint].  [NixfTidy.lint] always returns, and a file whose
    child cannot be spawned adds no issue. *)
Theorem process_failure_handling :
  (forall (parser : JSONParse Statix.Parsed) timestamp filePaths configPath run thrown,
      Statix.lint timestamp filePaths configPath run = Raised thrown
      <-> exists rejected,
            run (Statix.buildArgs filePaths configPath) = Statix.Rejected rejected
            /\ ((Statix.isExecError rejected = false /\ thrown = rejected)
                \/ (Statix.isExecError rejected = true
                    /\ In Statix.ParsedOther
                          (Statix.parseResults (Statix.stdout_of rejected))
                    /\ thrown = Statix.ThrownTypeError)))
  /\ (forall (parser : JSONParse Statix.Parsed) timestamp filePaths configPath process,
      (forall message,
          process (Statix.buildArgs filePaths configPath) = Statix.SpawnFails message ->
          Statix.lint timestamp filePaths configPath
                      (fun args => Statix.execFileAsync (process args))
          = Returned (clean timestamp filePaths))
      /\ (forall thrown,
          Statix.lint timestamp filePaths configPath
                      (fun args => Statix.execFileAsync (process args))
          = Raised thrown ->
          thrown = Statix.ThrownTypeError))
  /\ (forall (parser : JSONParse NixfTidy.Parsed) timestamp filePaths spawn,
      exists r, NixfTidy.lint timestamp filePaths spawn = Returned r)
  /\ (forall (parser : JSONParse NixfTidy.Parsed) timestamp spawn f message,
      spawn f = NixfTidy.SpawnFails message ->
      NixfTidy.fileIssues spawn f = []
      /\ NixfTidy.lint timestamp [f] spawn = Returned (clean timestamp [f])).
Proof.
  split; [|split; [|split]].
  - intros parser timestamp filePaths configPath run thrown.
    apply Statix_lint_raised.
  - intros parser timestamp filePaths configPath process. split.
    + intros message Hprocess. unfold Statix.lint. rewrite Hprocess. reflexivity.
    + intros thrown H. apply Statix_lint_raised in H.
      destruct H as (rejected & Hrun & [(Hexec & _)|(_ & _ & ->)]); [|reflexivity].
      rewrite (execFileAsync_attaches_stdout _ _ Hrun) in Hexec. discriminate.
  - intros. eexists. reflexivity.
  - intros parser timestamp spawn f message Hrun.
    assert (Hnone : NixfTidy.fileIssues spawn f = []).
    { apply (rejected_file_adds_nothing spawn f (NixfTidy.SpawnFailed message)).
      now rewrite Hrun. }
    split; [exact Hnone|].
    unfold NixfTidy.lint. rewrite lint_loop_flat_map. simpl. now rewrite Hnone.
Qed.

End Failures.

(** *** The adapters on sample runs *)

Section LintSamples.
Import Text JS Schemas Contract Samples.

(** The Statix test "parses JSON output with warnings correctly". *)
Example statix_warning_run :
  Statix.lint (parser := statix_runtime) "2025-01-01T00:00:00.000Z" ["test.nix"] None
              (fun _ => Statix.Rejected (exec_error "{inherit_report}"))
  = Returned
      {| timestamp := "2025-01-01T00:00:00.000Z";
         files := ["test.nix"];
         issues := [ {| issue_file := "/path/to/test.nix";
                        issue_line := 1; issue_column := 10;
                        issue_severity := warning;
                        issue_message := "manual inherit [W04]";
                        issue_rule := Some "W04" |} ];
         errorCount := 0;
         warningCount := 1 |}.
Proof. vm_compute. reflexivity. Qed.

(** The nixf-tidy test "parses nixf-tidy output with warnings correctly". *)
Example nixf_warning_run :
  NixfTidy.lint (parser := nixf_runtime) "2025-01-01T00:00:00.000Z" ["test.nix"]
                (fun _ => NixfTidy.Closes (Some 0%Z) "[unused_diagnostic]" "")
  = Returned
      {| timestamp := "2025-01-01T00:00:00.000Z";
         files := ["test.nix"];
         issues := [ {| issue_file := "test.nix";
                        issue_line := 3; issue_column := 5;
                        issue_severity := warning;
                        issue_message := "unused variable `unusedVar`";
                        issue_rule := Some "sema-unused-binding" |} ];
         errorCount := 0;
         warningCount := 1 |}.
Proof. vm_compute. reflexivity. Qed.

(** The Statix test "re-throws non-exec errors". *)
Example statix_foreign_error_run :
  Statix.lint (parser := statix_runtime) "2025-01-01T00:00:00.000Z" ["test.nix"] None
              (fun _ => Statix.Rejected foreign_error)
  = Raised foreign_error.
Proof. reflexivity. Qed.

Lemma lint_counts_match_issues_witness :
  (exists r,
      Statix.lint (parser := statix_runtime) "2025-01-01T00:00:00.000Z" ["test.nix"] None
                  (fun _ => Statix.Rejected (exec_error "{inherit_report}")) = Returned r
      /\ errorCount r = severity_count error (issues r)
      /\ warningCount r = severity_count warning (issues r))
  /\ (exists r,
      NixfTidy.lint (parser := nixf_runtime) "2025-01-01T00:00:00.000Z" ["test.nix"]
                    (fun _ => NixfTidy.Closes (Some 0%Z) "[unused_diagnostic]" "") = Returned r
      /\ errorCount r = severity_count error (issues r)
      /\ warningCount r = severity_count warning (issues r)).
Proof.
  split; eexists; (split; [vm_compute; reflexivity|]).
  - apply (proj1 lint_counts_match_issues statix_runtime
             "2025-01-01T00:00:00.000Z" ["test.nix"] None
             (fun _ => Statix.Rejected (exec_error "{inherit_report}"))).
    vm_compute. reflexivity.
  - apply (proj2 lint_counts_match_issues nixf_runtime
             "2025-01-01T00:00:00.000Z" ["test.nix"]
             (fun _ => NixfTidy.Closes (Some 0%Z) "[unused_diagnostic]" "")).
    vm_compute. reflexivity.
Defined.

(** Against C5 as stated.  A Statix suggestion at offset 0 gives an
    issue in column 0. *)
Lemma statix_offset_zero_column_zero :
  exists r i,
    Statix.lint (parser := statix_runtime) "2025-01-01T00:00:00.000Z" ["head.nix"] None
                (fun _ => Statix.Rejected (exec_error "{head_report}")) = Returned r
    /\ In i (issues r)
    /\ issue_column i = 0%Z
    /\ ~ one_based i.
Proof.
  eexists. eexists. split; [vm_compute; reflexivity|].
  split; [left; reflexivity|].
  split; [reflexivity|].
  unfold one_based. simpl. lia.
Qed.

Lemma emitted_positions_witness :
  (exists r,
      NixfTidy.lint (parser := nixf_runtime) "2025-01-01T00:00:00.000Z" ["test.nix"]
                    (fun _ => NixfTidy.Closes (Some 0%Z) "[unused_diagnostic]" "") = Returned r
      /\ Forall one_based (issues r))
  /\ (exists r results,
      Statix.lint (parser := statix_runtime) "2025-01-01T00:00:00.000Z" ["head.nix"] None
                  (fun _ => Statix.Rejected (exec_error "{head_report}")) = Returned r
      /\ Forall (fun i => issue_line i = 1%Z) (issues r)
      /\ map issue_column (issues r) = map at_from (flat_map suggestions results)
      /\ r = Statix.createLintData "2025-01-01T00:00:00.000Z" ["head.nix"] results).
Proof.
  split.
  - eexists. split; [vm_compute; reflexivity|].
    apply (proj1 emitted_positions nixf_runtime
             "2025-01-01T00:00:00.000Z" ["test.nix"]
             (fun _ => NixfTidy.Closes (Some 0%Z) "[unused_diagnostic]" "")).
    + vm_compute. reflexivity.
    + intros f diagnostics _ H. vm_compute in H. injection H as <-.
      constructor; [|constructor]. unfold zero_based. simpl. lia.
  - eexists.
    destruct (proj2 emitted_positions statix_runtime
                "2025-01-01T00:00:00.000Z" ["head.nix"] None
                (fun _ => Statix.Rejected (exec_error "{head_report}")) _ eq_refl)
      as (results & H).
    exists results. split; [reflexivity | exact H].
Defined.

Lemma malformed_output_degrades_witness :
  Statix.lint (parser := statix_runtime) "2025-01-01T00:00:00.000Z" ["test.nix"] None
              (fun _ => Statix.Rejected (exec_error "invalid json output"))
  = Returned (clean "2025-01-01T00:00:00.000Z" ["test.nix"])
  /\ NixfTidy.lint (parser := nixf_runtime) "2025-01-01T00:00:00.000Z" ["test.nix"]
                   (fun _ => NixfTidy.Closes (Some 0%Z) "invalid json" "")
     = Returned (clean "2025-01-01T00:00:00.000Z" ["test.nix"]).
Proof.
  split.
  - apply (proj1 malformed_output_degrades statix_runtime
             "2025-01-01T00:00:00.000Z" ["test.nix"] None
             (fun _ => Statix.Rejected (exec_error "invalid json output"))
             {| Statix.error_message := "Command failed";
                Statix.error_stdout := Some (Some "invalid json output") |}
             "invalid json output" "invalid json output").
    + reflexivity.
    + reflexivity.
    + vm_compute. left. reflexivity.
    + vm_compute. reflexivity.
  - apply (proj2 malformed_output_degrades nixf_runtime
             "2025-01-01T00:00:00.000Z" [] "test.nix" []
             (fun _ => NixfTidy.Closes (Some 0%Z) "invalid json" "")
             (Some 0%Z) "invalid json" "").
    + reflexivity.
    + vm_compute. reflexivity.
Defined.

(** One line parses, the next does not: nothing is kept. *)
Lemma statix_parse_all_or_nothing_witness :
  JSON_parse (JSONParse := statix_runtime) "{inherit_report}"
  = Some (Statix.ParsedReport inherit_report)
  /\ Statix.parseResults (parser := statix_runtime)
       (Some ("{inherit_report}" ++ String LF "{broken"))%string = [].
Proof.
  split; [vm_compute; reflexivity|].
  apply (statix_parse_all_or_nothing statix_runtime
           ("{inherit_report}" ++ String LF "{broken")%string "{broken").
  - vm_compute. right. left. reflexivity.
  - vm_compute. reflexivity.
Defined.

(** The stdout of an exec error is valid JSON and no report: the
    TypeError leaves [lint]. *)
Example statix_other_json_run :
  Statix.lint (parser := statix_runtime) "2025-01-01T00:00:00.000Z" ["test.nix"] None
              (fun _ => Statix.Rejected (exec_error "{}"))
  = Raised Statix.ThrownTypeError.
Proof. vm_compute. reflexivity. Qed.

(** Against C7 as stated.  The statix binary does not exist: the
    promise of [execFileAsync] rejects with an error that carries the
    empty stdout, and [Statix.lint] returns the clean document.  The
    nixf-tidy test "handles nixf-tidy spawn errors": the child cannot be
    spawned, and [NixfTidy.lint] returns the clean document.  Neither
    throws. *)
Lemma spawn_failure_returns :
  (Statix.lint (parser := statix_runtime) "2025-01-01T00:00:00.000Z" ["test.nix"] None
               (fun _ => Statix.execFileAsync (Statix.SpawnFails "spawn statix ENOENT"))
   = Returned (clean "2025-01-01T00:00:00.000Z" ["test.nix"])
   /\ forall thrown,
        Statix.lint (parser := statix_runtime) "2025-01-01T00:00:00.000Z" ["test.nix"] None
                    (fun _ => Statix.execFileAsync (Statix.SpawnFails "spawn statix ENOENT"))
        <> Raised thrown)
  /\ (NixfTidy.lint (parser := nixf_runtime) "2025-01-01T00:00:00.000Z" ["test.nix"]
                    (fun _ => NixfTidy.SpawnFails "spawn failed")
      = Returned (clean "2025-01-01T00:00:00.000Z" ["test.nix"])
      /\ forall e,
           NixfTidy.lint (parser := nixf_runtime) "2025-01-01T00:00:00.000Z" ["test.nix"]
                         (fun _ => NixfTidy.SpawnFails "spawn failed")
           <> Raised e).
Proof.
  split; (split; [reflexivity | discriminate]).
Qed.

Lemma process_failure_handling_witness :
  Statix.lint (parser := statix_runtime) "2025-01-01T00:00:00.000Z" ["test.nix"] None
              (fun args => Statix.execFileAsync (Statix.SpawnFails "spawn statix ENOENT"))
  = Returned (clean "2025-01-01T00:00:00.000Z" ["test.nix"])
  /\ (exists rejected,
        Statix.Rejected (exec_error "{}") = Statix.Rejected rejected
        /\ ((Statix.isExecError rejected = false
             /\ Statix.ThrownTypeError = rejected)
            \/ (Statix.isExecError rejected = true
                /\ In Statix.ParsedOther
                      (Statix.parseResults (parser := statix_runtime)
                                           (Statix.stdout_of rejected))
                /\ Statix.ThrownTypeError = Statix.ThrownTypeError)))
  /\ NixfTidy.fileIssues (parser := nixf_runtime)
                         (fun _ => NixfTidy.SpawnFails "spawn failed") "test.nix" = []
  /\ NixfTidy.lint (parser := nixf_runtime) "2025-01-01T00:00:00.000Z" ["test.nix"]
                   (fun _ => NixfTidy.SpawnFails "spawn failed")
     = Returned (clean "2025-01-01T00:00:00.000Z" ["test.nix"]).
Proof.
  split; [|split].
  - apply (proj1 (proj1 (proj2 process_failure_handling) statix_runtime
                    "2025-01-01T00:00:00.000Z" ["test.nix"] None
                    (fun _ => Statix.SpawnFails "spawn statix ENOENT"))
             "spawn statix ENOENT").
    reflexivity.
  - apply (proj1 (proj1 process_failure_handling statix_runtime
                    "2025-01-01T00:00:00.000Z" ["test.nix"] None
                    (fun _ => Statix.Rejected (exec_error "{}"))
                    Statix.ThrownTypeError)).
    vm_compute. reflexivity.
  - apply (proj2 (proj2 (proj2 process_failure_handling)) nixf_runtime
             "2025-01-01T00:00:00.000Z"
             (fun _ => NixfTidy.SpawnFails "spawn failed") "test.nix" "spawn failed").
    reflexivity.
Defined.

End LintSamples.

(* ================================================================== *)
(** ** Properties of the Nix test reporter *)

Section ReporterRuns.
Import Text NixReporter Contract Samples.

Example passing_output_run :
  parse_and_save_output passing_output
  = {| testModules :=
         [ {| moduleId := "tests";
              tests :=
                [ create_test "testBasicMath" "tests.testBasicMath" passed [];
                  create_test "testBooleanLogic" "tests.testBooleanLogic" passed [];
                  create_test "testListLength" "tests.testListLength" passed [];
                  create_test "testStringConcatenation"
                              "tests.testStringConcatenation" passed [] ] |} ];
       reason := passed |}.
Proof. vm_compute. reflexivity. Qed.

(** The second failing test ends up with the summary line and the final
    error line among its details. *)
Example failing_output_run :
  parse_and_save_output failing_output
  = {| testModules :=
         [ {| moduleId := "tests";
              tests :=
                [ create_test "testBasicMath" "tests.testBasicMath" failed
                    [create_test_error
                       "/tmp/nix-123/expected.nix --- Nix\n1 5                           1 6"];
                  create_test "testStringConcatenation"
                              "tests.testStringConcatenation" failed
                    [create_test_error
                       ("/tmp/nix-456/expected.nix --- Nix\n" ++ diff_line
                        ++ "\n😢 0/2 successful\nerror: Tests failed")%string] ] |} ];
       reason := failed |}.
Proof. vm_compute. reflexivity. Qed.

Example error_output_run :
  parse_and_save_output error_output
  = evaluation_failure "error: syntax error, unexpected IN_KW".
Proof. vm_compute. reflexivity. Qed.

(** C3.  On the lines ✅ testA, ❌ testB, detail1, detail2,
    🎉 1/2 successful the parser stores testA as passed and testB as
    failed with one error, and the reason is failed; the summary line is
    collected as a third detail, and the details are joined by the two
    characters backslash and n, so the message is not detail1, a
    newline, detail2. *)
Theorem failing_run_document :
  parse_and_save_output
    ["✅ testA"; "❌ testB"; "detail1"; "detail2"; "🎉 1/2 successful"]
  = {| testModules :=
         [ {| moduleId := "tests";
              tests :=
                [ {| name := "testA"; fullName := "tests.testA";
                     state := passed; errors := [] |};
                  {| name := "testB"; fullName := "tests.testB";
                     state := failed;
                     errors :=
                       [ {| message := "detail1\ndetail2\n🎉 1/2 successful" |} ] |} ] |} ];
       reason := failed |}
  /\ "detail1\ndetail2\n🎉 1/2 successful"
     <> ("detail1" ++ String LF "detail2")%string.
Proof.
  split; [vm_compute; reflexivity | discriminate].
Qed.

(** Against C2 as stated.  A passing test followed by the summary
    🎉 1/2: the reason is failed,
    no TestCase is failed, nothing is synthetic, and the document has no
    unhandled error. *)
Lemma summary_mismatch_fails_alone :
  let r := parse_and_save_output ["✅ testA"; "🎉 1/2 successful"] in
  reason r = failed
  /\ ~ (has_failed_test r \/ unhandledErrors r <> [] \/ has_synthetic_test r).
Proof.
  split; [vm_compute; reflexivity|].
  intros [H|[H|H]].
  - destruct H as (m & t & Hm & Ht & Hs).
    vm_compute in Hm. destruct Hm as [<-|[]].
    vm_compute in Ht. destruct Ht as [<-|[]]. discriminate.
  - apply H. reflexivity.
  - destruct H as (m & t & Hm & Ht & Hs).
    vm_compute in Hm. destruct Hm as [<-|[]].
    vm_compute in Ht. destruct Ht as [<-|[]]. discriminate.
Qed.

End ReporterRuns.

Section ReporterReason.
Import Text NixReporter Contract.

Lemma test_line_name line mark test_name :
  match_test_line line = Some (mark, test_name) -> nonempty test_name = true.
Proof.
  unfold match_test_line.
  destruct (strip_prefix "✅" line) as [rest|].
  - destruct (spaces1 rest) as [r|]; [|discriminate].
    destruct (nonempty (take_nonspace r)) eqn:E; [|discriminate].
    now intros [= _ <-].
  - destruct (strip_prefix "❌" line) as [rest|]; [|discriminate].
    destruct (spaces1 rest) as [r|]; [|discriminate].
    destruct (nonempty (take_nonspace r)) eqn:E; [|discriminate].
    now intros [= _ <-].
Qed.

Lemma existsb_snoc {A} (f : A -> bool) l x :
  existsb f (l ++ [x]) = existsb f l || f x.
Proof. rewrite existsb_app. simpl. now rewrite orb_false_r. Qed.

Lemma step_reason_invariant seen st line :
  reason_invariant seen st -> reason_invariant (seen ++ [line]) (step st line).
Proof.
  unfold reason_invariant. rewrite existsb_snoc.
  generalize (existsb signals_failure seen). intros S.
  unfold step, signals_failure.
  destruct st as [tests r ht mid nm details inerr].
  destruct (has_content line); simpl; [|rewrite !orb_false_r; auto].
  destruct (is_warning line); simpl; [rewrite !orb_false_r; auto|].
  destruct (match_test_line line) as [[mark test_name]|] eqn:Htest.
  - apply test_line_name in Htest.
    unfold on_test_line, save_previous, pending, add_test. simpl.
    rewrite orb_false_r.
    intros [HR Hname].
    destruct (nonempty nm) eqn:En, inerr, mark; simpl in *;
      rewrite ?existsb_snoc; simpl;
      rewrite ?Htest, ?orb_false_r, ?orb_true_r, ?andb_false_r in *;
      simpl in *; auto.
  - unfold pending. simpl. intros [HR Hname].
    destruct inerr.
    + pose proof (Hname eq_refl) as Hn.
      rewrite Hn in HR. simpl in HR. rewrite orb_true_r in HR. simpl in HR.
      assert (Hkeep : forall d,
                 failed_reason r = existsb is_failed tests || nonempty nm && true
                                   || (S || d)
                 /\ (true = true -> nonempty nm = true)).
      { intros d. rewrite Hn, HR. simpl. rewrite orb_true_r. auto. }
      unfold on_detail_line.
      destruct (has_content (strip_ansi line)); simpl;
        [destruct (nonempty details); simpl|]; apply Hkeep.
    + rewrite andb_false_r in *. rewrite orb_false_r in HR.
      destruct (match_summary line) as [[[face p] t]|].
      * unfold on_summary_line.
        destruct (_ || negb (p =? t)%string); simpl;
          rewrite ?andb_false_r, ?orb_false_r, ?orb_true_r; auto.
      * destruct (is_error_line line); simpl;
          rewrite ?andb_false_r, ?orb_false_r, ?orb_true_r; auto.
        unfold on_error_line. simpl. destruct ht; simpl; auto.
Qed.

Lemma scan_reason_invariant lines : reason_invariant lines (scan lines).
Proof.
  unfold scan.
  induction lines as [|line lines IH] using rev_ind.
  - split; [reflexivity | discriminate].
  - rewrite fold_left_app. simpl. now apply step_reason_invariant.
Qed.

Lemma assemble_failed_test st :
  has_failed_test (assemble st) <-> existsb is_failed (current_tests st) = true.
Proof.
  unfold has_failed_test, assemble. rewrite existsb_exists. simpl.
  destruct (current_tests st) as [|t0 ts] eqn:E; simpl.
  - split; [intros (m & t & [] & _) | intros (t & [] & _)].
  - split.
    + intros (m & t & [<-|[]] & Ht & Hs). simpl in Ht.
      exists t. split; [exact Ht|]. unfold is_failed. now rewrite Hs.
    + intros (t & Ht & Hs). eexists. exists t.
      split; [left; reflexivity|]. split; [exact Ht|].
      unfold is_failed in Hs. now destruct (state t).
Qed.

Lemma failed_reason_true s : failed_reason s = true <-> s = failed.
Proof. destruct s; simpl; split; congruence. Qed.

(** C2, as the code has it.  The reason is failed exactly when a
    TestCase of the document is failed (the synthetic evaluation test
    is one) or a line of the input signals a failure: a line that is not
    blank, no warning and no test line, and that is a summary with the
    sad face or unequal counts or, when it is no summary, an error line.
    The document never holds unhandled errors. *)
Theorem reason_failed_iff :
  forall lines,
    unhandledErrors (parse_and_save_output lines) = []
    /\ (reason (parse_and_save_output lines) = failed
        <-> (has_failed_test (parse_and_save_output lines)
             \/ exists l, In l lines /\ signals_failure l = true)).
Proof.
  intros lines. split; [reflexivity|].
  unfold parse_and_save_output.
  rewrite assemble_failed_test, <- existsb_exists.
  pose proof (scan_reason_invariant lines) as [HR Hname].
  generalize dependent (scan lines). intros st HR Hname.
  generalize dependent (existsb signals_failure lines). intros S HR.
  rewrite <- failed_reason_true.
  destruct st as [tests r ht mid nm details inerr].
  unfold save_remaining, fold_output, pending, add_test in *. simpl in *.
  destruct (nonempty nm) eqn:En, inerr, ht, (0 <? length lines); simpl in *;
    rewrite ?existsb_snoc; simpl;
    rewrite ?orb_true_r, ?orb_false_r in *; simpl in *;
    rewrite ?HR; try tauto; apply orb_true_iff.
Qed.

End ReporterReason.

Section ReporterEvaluation.
Import Text NixReporter Contract.

Lemma step_evaluation_invariant seen st line :
  match_test_line line = None ->
  evaluation_invariant seen st ->
  evaluation_invariant (seen ++ [line]) (step st line).
Proof.
  intros Htest (Hsection & Hname & Hcases).
  assert (Hweak : forall s, evaluation_invariant seen s ->
                            evaluation_invariant (seen ++ [line]) s).
  { intros s (H1 & H2 & [H3|(H3 & H4 & H5 & l & Hl & H6)]).
    - split; [exact H1|]. split; [exact H2|]. now left.
    - split; [exact H1|]. split; [exact H2|]. right.
      repeat split; try assumption.
      exists l. split; [apply in_or_app; now left | assumption]. }
  assert (Hst : evaluation_invariant (seen ++ [line]) st)
    by (apply Hweak; repeat split; assumption).
  unfold step. rewrite Htest, Hsection.
  destruct (negb (has_content line)); [exact Hst|].
  destruct (is_warning line); [exact Hst|].
  destruct (match_summary line) as [[[face p] t]|].
  - unfold on_summary_line.
    destruct (_ || negb (p =? t)%string); [|exact Hst].
    destruct st as [tests r ht mid nm details inerr]. simpl in *.
    destruct Hst as (H1 & H2 & [H3|(H3 & H4 & H5 & H6)]).
    + split; [exact H1|]. split; [exact H2|]. now left.
    + split; [exact H1|]. split; [exact H2|]. right. auto.
  - destruct (is_error_line line) eqn:Herr; [|exact Hst].
    destruct st as [tests r ht mid nm details inerr]. simpl in *.
    unfold on_error_line. simpl.
    destruct Hcases as [(H3 & H4)|(H3 & H4 & H5 & l & Hl & H6 & H7)]; subst; simpl.
    + split; [reflexivity|]. split; [reflexivity|]. right.
      repeat split. exists line.
      split; [apply in_or_app; right; now left|]. split; [exact Herr | reflexivity].
    + split; [reflexivity|]. split; [reflexivity|]. right.
      repeat split. exists l.
      split; [apply in_or_app; now left|]. split; [exact H6 | reflexivity].
Qed.

Lemma scan_evaluation_invariant lines :
  (forall l, In l lines -> match_test_line l = None) ->
  evaluation_invariant lines (scan lines).
Proof.
  unfold scan.
  induction lines as [|line lines IH] using rev_ind; intros Hnone.
  - split; [reflexivity|]. split; [reflexivity|]. now left.
  - rewrite fold_left_app. simpl.
    apply step_evaluation_invariant.
    + apply Hnone, in_or_app. right. now left.
    + apply IH. intros l Hl. apply Hnone, in_or_app. now left.
Qed.

(** The command substitution keeps a line that holds no newline. *)
Lemma strip_keeps_line l t :
  newline_free l = true -> nonempty l = true ->
  exists t', strip_trailing_newlines (l ++ t)%string = (l ++ t')%string.
Proof.
  induction l as [|c l IH]; [discriminate|].
  simpl. intros Hfree _.
  apply andb_prop in Hfree. destruct Hfree as [Hc Hl].
  apply negb_true_iff in Hc. rewrite Hc. simpl.
  destruct l as [|d l'].
  - simpl. eexists. reflexivity.
  - destruct (IH Hl eq_refl) as (t' & ->). eexists. reflexivity.
Qed.

Lemma strip_after_prefix a b :
  nonempty (strip_trailing_newlines b) = true ->
  strip_trailing_newlines (a ++ b)%string
  = (a ++ strip_trailing_newlines b)%string.
Proof.
  intros Hb. induction a as [|c a IH]; simpl; [reflexivity|].
  rewrite IH.
  assert (Hn : nonempty (a ++ strip_trailing_newlines b)%string = true).
  { destruct a; simpl; [exact Hb | reflexivity]. }
  rewrite Hn. simpl. now rewrite andb_false_r.
Qed.

Lemma append_assoc (a b c : string) :
  ((a ++ b) ++ c)%string = (a ++ (b ++ c))%string.
Proof. induction a; simpl; congruence. Qed.

Lemma printf_lines_holds lines l :
  In l lines ->
  exists pre post, printf_lines lines = (pre ++ (l ++ String LF post))%string.
Proof.
  induction lines as [|x xs IH]; [contradiction|].
  intros [->|Hin]; simpl.
  - exists EmptyString. eexists. reflexivity.
  - destruct (IH Hin) as (pre & post & ->).
    exists (x ++ String LF pre)%string, post.
    rewrite append_assoc. reflexivity.
Qed.

Lemma joined_output_holds lines l :
  In l lines -> newline_free l = true -> nonempty l = true ->
  infix l (joined_output lines).
Proof.
  intros Hin Hfree Hne. unfold joined_output, infix.
  destruct (printf_lines_holds lines l Hin) as (pre & post & ->).
  destruct (strip_keeps_line l (String LF post) Hfree Hne) as (t' & Ht).
  rewrite strip_after_prefix.
  - rewrite Ht. now exists pre, t'.
  - rewrite Ht. destruct l; [discriminate | reflexivity].
Qed.

Lemma infix_refl l : infix l l.
Proof.
  exists EmptyString, EmptyString. simpl.
  induction l; simpl; congruence.
Qed.

Lemma error_line_nonempty l : is_error_line l = true -> nonempty l = true.
Proof. destruct l; [discriminate | reflexivity]. Qed.

(** C8.  When no line of the input is a test line and some line is an
    error line, the document is one module "compilation" with the one
    failed test "evaluation", whose one error message holds an error
    line of the input, and the reason is failed.  The message is that
    line itself (the first one to reach the error branch) or, when no
    line reaches it, the whole output.  The lines are those of a
    captured stream: none holds a newline. *)
Theorem evaluation_error_document :
  forall lines,
    Forall (fun l => newline_free l = true) lines ->
    (forall l, In l lines -> match_test_line l = None) ->
    (exists l, In l lines /\ is_error_line l = true) ->
    exists msg l,
      parse_and_save_output lines = evaluation_failure msg
      /\ In l lines /\ is_error_line l = true /\ infix l msg
      /\ (msg = l \/ msg = joined_output lines).
Proof.
  intros lines Hfree Hnone (l & Hl & Herr).
  pose proof (scan_evaluation_invariant lines Hnone) as (Hsection & Hname & Hcases).
  unfold parse_and_save_output, save_remaining, pending.
  rewrite Hname, Hsection. simpl.
  unfold fold_output.
  destruct Hcases as [(Hht & Htests)|(Hht & Hmod & Hreason & l' & Hl' & Herr' & Htests)].
  - rewrite Hht. simpl.
    assert (Hlen : (0 <? length lines) = true)
      by (destruct lines; [contradiction | reflexivity]).
    rewrite Hlen.
    exists (joined_output lines), l.
    split; [unfold assemble, add_test; simpl; now rewrite Htests|].
    split; [exact Hl|]. split; [exact Herr|].
    split; [|now right].
    apply joined_output_holds; [exact Hl | | now apply error_line_nonempty].
    rewrite Forall_forall in Hfree. now apply Hfree.
  - rewrite Hht. simpl.
    exists l', l'.
    split; [unfold assemble; now rewrite Htests, Hmod, Hreason|].
    split; [exact Hl'|]. split; [exact Herr'|].
    split; [apply infix_refl | now left].
Qed.

Lemma evaluation_error_document_witness :
  exists msg l,
    parse_and_save_output ["error: syntax error, unexpected token"]
    = evaluation_failure msg
    /\ In l ["error: syntax error, unexpected token"]
    /\ is_error_line l = true /\ infix l msg
    /\ (msg = l \/ msg = joined_output ["error: syntax error, unexpected token"]).
Proof.
  apply (evaluation_error_document ["error: syntax error, unexpected token"]).
  - constructor; [vm_compute; reflexivity | constructor].
  - intros l [<-|[]]. vm_compute. reflexivity.
  - exists "error: syntax error, unexpected token".
    split; [left; reflexivity | vm_compute; reflexivity].
Defined.

(** The error line alone, and an input the fallback folds whole. *)
Example syntax_error_run :
  parse_and_save_output ["error: syntax error, unexpected token"]
  = evaluation_failure "error: syntax error, unexpected token".
Proof. vm_compute. reflexivity. Qed.

Example warned_error_run :
  parse_and_save_output ["warning: error: ignored option"; "at tests.nix"]
  = evaluation_failure
      ("warning: error: ignored option" ++ String LF "at tests.nix")%string.
Proof. vm_compute. reflexivity. Qed.

End ReporterEvaluation.

Section ReporterCapture.
Import Text NixReporter Contract.

(** The loop without errexit: it keeps lines up to the limit. *)
Lemma read_loop_plain max stdin output_lines line_count :
  line_count <= max ->
  read_loop false max stdin output_lines line_count
  = Continues (output_lines ++ firstn (max - line_count) stdin,
               line_count + min (max - line_count) (length stdin)).
Proof.
  revert output_lines line_count.
  induction stdin as [|line rest IH]; intros output_lines line_count Hle; simpl.
  - rewrite firstn_nil, app_nil_r, Nat.min_0_r, Nat.add_0_r. reflexivity.
  - destruct (line_count <? max) eqn:Hlt.
    + apply Nat.ltb_lt in Hlt.
      rewrite IH by lia.
      replace (max - line_count) with (S (max - S line_count)) by lia.
      simpl. rewrite <- app_assoc. simpl.
      f_equal. f_equal. lia.
    + apply Nat.ltb_ge in Hlt.
      replace (max - line_count) with 0 by lia.
      simpl. rewrite app_nil_r, Nat.add_0_r. reflexivity.
Qed.

(** With errexit, as the script sets it, the first line read ends the
    script: [((line_count++))] fails when [line_count] is 0. *)
Lemma passthrough_exits_on_first_line max line rest :
  0 < max -> capture_passthrough errexit max (line :: rest) = Exits 1.
Proof.
  intros Hmax. unfold capture_passthrough, errexit. simpl.
  destruct max; [lia | reflexivity].
Qed.

Lemma passthrough_plain max stdin :
  0 < max -> max <= length stdin ->
  capture_passthrough false max stdin
  = Continues (firstn max stdin ++ [truncation_warning]).
Proof.
  intros Hmax Hlen. unfold capture_passthrough.
  rewrite read_loop_plain by lia. simpl.
  rewrite Nat.sub_0_r, Nat.min_l by lia.
  now rewrite Nat.leb_refl.
Qed.

(** C9 on the code.  For an output longer than the limit, the path that
    runs nix-unit itself keeps the first [max] lines and appends
    nothing: the kept stream has [max] entries, not [max + 1], and the
    lines after them are gone without a trace.  The passthrough path
    exits on its first line; its loop, were errexit off, would keep
    [max] lines and append the warning. *)
Theorem long_output_capture :
  forall max output,
    0 < max -> max < length output ->
    (exists dropped,
        capture_direct max output = Continues (firstn max output)
        /\ output = firstn max output ++ dropped
        /\ dropped <> []
        /\ length (firstn max output) = max)
    /\ capture_passthrough errexit max output = Exits 1
    /\ capture_passthrough false max output
       = Continues (firstn max output ++ [truncation_warning]).
Proof.
  intros max output Hmax Hlen.
  split; [|split].
  - exists (skipn max output).
    split; [reflexivity|].
    split; [symmetry; apply firstn_skipn|].
    split.
    + intros H. apply (f_equal (@length string)) in H.
      rewrite length_skipn in H. simpl in H. lia.
    + apply firstn_length_le. lia.
  - destruct output as [|line rest]; [simpl in Hlen; lia|].
    now apply passthrough_exits_on_first_line.
  - apply passthrough_plain; lia.
Qed.

Lemma long_output_capture_witness :
  capture_direct 2 ["✅ a"; "✅ b"; "❌ c"] = Continues ["✅ a"; "✅ b"]
  /\ capture_passthrough errexit 2 ["✅ a"; "✅ b"; "❌ c"] = Exits 1.
Proof.
  destruct (long_output_capture 2 ["✅ a"; "✅ b"; "❌ c"]) as ((dropped & H & _) & H' & _).
  - lia.
  - simpl. lia.
  - split; [exact H | exact H'].
Defined.

(** Three lines with a limit of two: the failing third test is cut off,
    no warning is kept, and the document says passed. *)
Example truncated_direct_run :
  main_direct 2 ["✅ a"; "✅ b"; "❌ c"]
  = Continues
      {| testModules :=
           [ {| moduleId := "tests";
                tests := [ create_test "a" "tests.a" passed [];
                           create_test "b" "tests.b" passed [] ] |} ];
         reason := passed |}.
Proof. vm_compute. reflexivity. Qed.

Example passthrough_run :
  main_passthrough MAX_OUTPUT_LINES (String.append "✅ a" (String LF ""))
  = Exits 1.
Proof. reflexivity. Qed.

End ReporterCapture.

(* ================================================================== *)
(** ** Further properties of the lint adapters *)

Section MoreLint.
Import Text JS Schemas Contract Facts Samples.

Lemma severity_counts_sum (l : list LintIssue) :
  severity_count error l + severity_count warning l = length l.
Proof.
  unfold severity_count.
  induction l as [|i l IH]; simpl; [reflexivity|].
  destruct (issue_severity i); simpl;
    repeat (destruct (Severity_eq_dec _ _); try congruence); simpl; lia.
Qed.

(** X1.  In every LintResult of [Statix.lint] and of [NixfTidy.lint] the
    two counts add up to the number of issues: each issue is counted
    once. *)
Theorem lint_counts_sum :
  (forall (parser : JSONParse Statix.Parsed) timestamp filePaths configPath run r,
      Statix.lint timestamp filePaths configPath run = Returned r ->
      errorCount r + warningCount r = length (issues r))
  /\ (forall (parser : JSONParse NixfTidy.Parsed) timestamp filePaths spawn r,
      NixfTidy.lint timestamp filePaths spawn = Returned r ->
      errorCount r + warningCount r = length (issues r)).
Proof.
  split.
  - intros parser timestamp filePaths configPath run r H.
    destruct (Statix_lint_returned _ _ _ _ _ H) as (results & -> & _).
    destruct (createLintData_counts timestamp filePaths results) as [-> ->].
    apply severity_counts_sum.
  - intros parser timestamp filePaths spawn r H.
    destruct (NixfTidy_lint_returned _ _ _ _ H) as (_ & _ & _ & [-> ->]).
    apply severity_counts_sum.
Qed.

Lemma lint_counts_sum_witness :
  (exists r,
      Statix.lint (parser := statix_runtime) "2025-01-01T00:00:00.000Z" ["test.nix"] None
                  (fun _ => Statix.Rejected (exec_error "{inherit_report}")) = Returned r
      /\ errorCount r + warningCount r = length (issues r))
  /\ (exists r,
      NixfTidy.lint (parser := nixf_runtime) "2025-01-01T00:00:00.000Z" ["test.nix"]
                    (fun _ => NixfTidy.Closes (Some 0%Z) "[unused_diagnostic]" "") = Returned r
      /\ errorCount r + warningCount r = length (issues r)).
Proof.
  split; eexists; (split; [vm_compute; reflexivity|]).
  - apply (proj1 lint_counts_sum statix_runtime
             "2025-01-01T00:00:00.000Z" ["test.nix"] None
             (fun _ => Statix.Rejected (exec_error "{inherit_report}"))).
    vm_compute. reflexivity.
  - apply (proj2 lint_counts_sum nixf_runtime
             "2025-01-01T00:00:00.000Z" ["test.nix"]
             (fun _ => NixfTidy.Closes (Some 0%Z) "[unused_diagnostic]" "")).
    vm_compute. reflexivity.
Defined.

Lemma statix_count_app issues1 issues2 sev :
  Statix.countBySeverity (issues1 ++ issues2) sev
  = Statix.countBySeverity issues1 sev + Statix.countBySeverity issues2 sev.
Proof.
  unfold Statix.countBySeverity. now rewrite filter_app, length_app.
Qed.

Lemma statix_count_report report sev :
  Statix.countBySeverity
    (map (fun s => Statix.toIssue report s) (suggestions report)) sev
  = if Severity_eqb (if String.eqb (report_kind report) "error"
                     then error else warning) sev
    then length (suggestions report) else 0.
Proof.
  unfold Statix.countBySeverity.
  induction (suggestions report) as [|s l IH]; simpl.
  - now destruct (Severity_eqb _ _).
  - destruct (Severity_eqb _ sev); simpl; [now rewrite IH | exact IH].
Qed.

(** X2.  A Statix document has one issue per suggestion.  The
    suggestions of the reports whose kind is 'error' are its errors,
    those of every other report its warnings, whatever the kind says. *)
Theorem statix_counts_by_report_kind :
  forall timestamp filePaths results,
    let is_error := fun report => String.eqb (report_kind report) "error" in
    let r := Statix.createLintData timestamp filePaths results in
    length (issues r) = length (flat_map suggestions results)
    /\ errorCount r = length (flat_map suggestions (filter is_error results))
    /\ warningCount r
       = length (flat_map suggestions
                          (filter (fun report => negb (is_error report)) results)).
Proof.
  intros timestamp filePaths results is_error r. subst r. simpl.
  unfold Statix.extractIssues.
  induction results as [|report results (IH1 & IH2 & IH3)]; simpl; [auto|].
  rewrite !length_app, !statix_count_app, !statix_count_report, length_map.
  rewrite IH1, IH2, IH3. subst is_error. simpl.
  destruct (String.eqb (report_kind report) "error"); simpl;
    rewrite ?length_app; repeat split; lia.
Qed.

End MoreLint.

Section RuleExtraction.
Import Text JS Schemas Contract Facts Samples.

Lemma extract_cons c tl :
  Statix.extractRuleFromMessage (String c tl)
  = if Ascii.eqb c "["
    then match rule_after_bracket tl with
         | Some r => Some r
         | None => Statix.extractRuleFromMessage tl
         end
    else Statix.extractRuleFromMessage tl.
Proof. reflexivity. Qed.

Lemma take_digits_split s ds rest :
  take_digits s = (ds, rest) ->
  s = (ds ++ rest)%string /\ NixCli.all_digits ds = true.
Proof.
  revert ds rest. induction s as [|c s IH]; simpl; intros ds rest.
  - intros [= <- <-]. auto.
  - destruct (is_digit c) eqn:Hc.
    + destruct (take_digits s) as [ds' rest'].
      intros [= <- <-]. destruct (IH _ _ eq_refl) as [-> Hd].
      simpl. rewrite Hc, Hd. auto.
    + intros [= <- <-]. auto.
Qed.

Lemma take_digits_stops ds c post :
  NixCli.all_digits ds = true -> is_digit c = false ->
  take_digits (ds ++ String c post)%string = (ds, String c post).
Proof.
  intros Hd Hc. induction ds as [|d ds IH]; simpl.
  - now rewrite Hc.
  - simpl in Hd. apply andb_prop in Hd. destruct Hd as [H1 H2].
    rewrite H1, (IH H2). reflexivity.
Qed.

Lemma rule_after_bracket_sound s r :
  rule_after_bracket s = Some r ->
  rule_code r = true /\ exists post, s = (r ++ String "]" post)%string.
Proof.
  destruct s as [|c tl]; simpl; [discriminate|].
  destruct (is_upper c) eqn:Hc; [|discriminate].
  destruct (take_digits tl) as [ds rest] eqn:Ht.
  destruct ds as [|d ds]; [discriminate|].
  destruct rest as [|close rest]; [discriminate|].
  destruct (Ascii.eqb close "]") eqn:Hclose; [|discriminate].
  intros [= <-]. apply Ascii.eqb_eq in Hclose. subst close.
  destruct (take_digits_split _ _ _ Ht) as [-> Hd].
  split.
  - simpl. rewrite Hc. simpl in Hd. now rewrite Hd.
  - exists rest. reflexivity.
Qed.

Lemma rule_after_bracket_complete r post :
  rule_code r = true ->
  rule_after_bracket (r ++ String "]" post)%string = Some r.
Proof.
  destruct r as [|c ds]; simpl; [discriminate|].
  intros H. apply andb_prop in H. destruct H as [H Hd].
  apply andb_prop in H. destruct H as [Hc Hne].
  rewrite Hc, (take_digits_stops ds "]" post Hd eq_refl).
  destruct ds; [discriminate | reflexivity].
Qed.

Lemma extract_sound m r :
  Statix.extractRuleFromMessage m = Some r ->
  rule_code r = true /\ infix (bracketed r) m.
Proof.
  induction m as [|c m IH]; [discriminate|].
  rewrite extract_cons.
  assert (Hlater : Statix.extractRuleFromMessage m = Some r ->
                   rule_code r = true /\ infix (bracketed r) (String c m)).
  { intros H. destruct (IH H) as (Hr & pre & post & ->).
    split; [exact Hr|]. now exists (String c pre), post. }
  destruct (Ascii.eqb c "[") eqn:Hc; [|exact Hlater].
  destruct (rule_after_bracket m) as [r'|] eqn:Hm; [|exact Hlater].
  intros [= ->]. apply Ascii.eqb_eq in Hc. subst c.
  destruct (rule_after_bracket_sound _ _ Hm) as (Hr & post & ->).
  split; [exact Hr|].
  exists EmptyString, post. unfold bracketed. simpl.
  now rewrite append_assoc.
Qed.

Lemma extract_complete m r :
  rule_code r = true -> infix (bracketed r) m ->
  Statix.extractRuleFromMessage m <> None.
Proof.
  intros Hr (pre & post & ->).
  induction pre as [|c pre IH].
  - change (EmptyString ++ bracketed r ++ post)%string
      with (String "[" ((r ++ "]") ++ post)%string).
    rewrite extract_cons, append_assoc.
    change ("]" ++ post)%string with (String "]" post).
    rewrite (rule_after_bracket_complete r post Hr). discriminate.
  - change (String c pre ++ bracketed r ++ post)%string
      with (String c (pre ++ bracketed r ++ post)%string).
    rewrite extract_cons.
    destruct (Ascii.eqb c "["); [|exact IH].
    destruct (rule_after_bracket _); [discriminate | exact IH].
Qed.

(** X3.  [extractRuleFromMessage] gives a rule code (a capital letter and
    digits) that stands between brackets in the message, and it gives
    nothing exactly when no such bracketed code stands in the message. *)
Theorem extractRule_correct :
  forall m,
    (forall r, Statix.extractRuleFromMessage m = Some r ->
               rule_code r = true /\ infix (bracketed r) m)
    /\ (Statix.extractRuleFromMessage m = None
        <-> ~ exists r, rule_code r = true /\ infix (bracketed r) m).
Proof.
  intros m. split; [intros r; apply extract_sound|].
  split.
  - intros Hnone (r & Hr & Hin). now apply (extract_complete m r Hr Hin).
  - intros Hno. destruct (Statix.extractRuleFromMessage m) as [r|] eqn:E; [|reflexivity].
    exfalso. apply Hno. exists r. now apply extract_sound.
Qed.

Lemma extractRule_correct_witness :
  rule_code "W04" = true /\ infix (bracketed "W04") "manual inherit [W04]".
Proof.
  apply (proj1 (extractRule_correct "manual inherit [W04]") "W04").
  vm_compute. reflexivity.
Defined.

End RuleExtraction.

Section MoreStatix.
Import Text JS Schemas Contract Facts Samples.

Lemma parseLines_all {parser : JSONParse Statix.Parsed} lines :
  (forall l, In l lines -> JSON_parse l <> None) ->
  exists reports,
    Statix.parseLines lines = Some reports
    /\ map Some reports = map JSON_parse lines.
Proof.
  induction lines as [|l lines IH]; simpl; intros Hall.
  - exists []. auto.
  - destruct (JSON_parse l) as [report|] eqn:Hl; [|now destruct (Hall l (or_introl eq_refl))].
    destruct IH as (reports & -> & Hmap); [intros; apply Hall; now right|].
    exists (report :: reports). simpl. now rewrite Hmap.
Qed.

Lemma blank_output_has_no_line out :
  truthy (trim out) = false -> Statix.outputLines out = [].
Proof.
  unfold Statix.outputLines, truthy. intros H.
  destruct (trim out); [reflexivity | discriminate].
Qed.

(** X4.  When every line Statix printed parses, [parseResults] gives the
    parsed values, one per line that is not empty, in the order of the
    lines. *)
Theorem parseResults_keeps_order :
  forall (parser : JSONParse Statix.Parsed) out,
    (forall l, In l (Statix.outputLines out) -> JSON_parse l <> None) ->
    map Some (Statix.parseResults (Some out))
    = map JSON_parse (Statix.outputLines out).
Proof.
  intros parser out Hall. unfold Statix.parseResults.
  destruct (truthy (trim out)) eqn:Ht; simpl.
  - destruct (parseLines_all _ Hall) as (reports & -> & Hmap). exact Hmap.
  - now rewrite (blank_output_has_no_line out Ht).
Qed.

Lemma parseResults_keeps_order_witness :
  map Some
      (Statix.parseResults (parser := statix_runtime)
         (Some ("{inherit_report}" ++ String LF (String LF "{head_report}")
                ++ String LF ""))%string)
  = [Some (Statix.ParsedReport inherit_report);
     Some (Statix.ParsedReport head_report)].
Proof.
  rewrite (parseResults_keeps_order statix_runtime
             ("{inherit_report}" ++ String LF (String LF "{head_report}")
              ++ String LF "")%string).
  - vm_compute. reflexivity.
  - vm_compute. intros l [<-|[<-|[]]]; discriminate.
Defined.

(** X5.  [Statix.lint] gives the clean document when the process exits
    with success, whatever it printed, and when an exec error carries no
    stdout text or only white space. *)
Theorem statix_clean_runs :
  forall (parser : JSONParse Statix.Parsed) timestamp filePaths configPath run,
    (forall out err,
        run (Statix.buildArgs filePaths configPath) = Statix.Resolved out err ->
        Statix.lint timestamp filePaths configPath run
        = Returned (clean timestamp filePaths))
    /\ (forall e,
        run (Statix.buildArgs filePaths configPath)
        = Statix.Rejected (Statix.ThrownObject e) ->
        (Statix.error_stdout e = Some None
         \/ exists out, Statix.error_stdout e = Some (Some out) /\ trim out = "") ->
        Statix.lint timestamp filePaths configPath run
        = Returned (clean timestamp filePaths)).
Proof.
  intros parser timestamp filePaths configPath run. split.
  - intros out err Hrun. unfold Statix.lint. now rewrite Hrun.
  - intros e Hrun Hout. unfold Statix.lint, Statix.isExecError, Statix.stdout_of.
    rewrite Hrun.
    destruct Hout as [->|(out & -> & Hblank)]; simpl; [reflexivity|].
    now rewrite Hblank.
Qed.

Lemma statix_clean_runs_witness :
  Statix.lint (parser := statix_runtime) "2025-01-01T00:00:00.000Z" ["test.nix"] None
              (fun _ => Statix.Resolved "{inherit_report}" "")
  = Returned (clean "2025-01-01T00:00:00.000Z" ["test.nix"])
  /\ Statix.lint (parser := statix_runtime) "2025-01-01T00:00:00.000Z" ["test.nix"] None
                 (fun _ => Statix.Rejected (exec_error "  "))
     = Returned (clean "2025-01-01T00:00:00.000Z" ["test.nix"]).
Proof.
  split.
  - apply (proj1 (statix_clean_runs statix_runtime "2025-01-01T00:00:00.000Z"
                    ["test.nix"] None
                    (fun _ => Statix.Resolved "{inherit_report}" ""))
             "{inherit_report}" "").
    reflexivity.
  - apply (proj2 (statix_clean_runs statix_runtime "2025-01-01T00:00:00.000Z"
                    ["test.nix"] None
                    (fun _ => Statix.Rejected (exec_error "  ")))
             {| Statix.error_message := "Command failed";
                Statix.error_stdout := Some (Some "  ") |}).
    + reflexivity.
    + right. exists "  ". split; [reflexivity | vm_compute; reflexivity].
Defined.

End MoreStatix.

Section MoreNixf.
Import Text JS Schemas Contract Facts Samples.

Lemma nixf_count_app issues1 issues2 sev :
  NixfTidy.countBySeverity (issues1 ++ issues2) sev
  = NixfTidy.countBySeverity issues1 sev + NixfTidy.countBySeverity issues2 sev.
Proof.
  unfold NixfTidy.countBySeverity. now rewrite filter_app, length_app.
Qed.

(** X6.  [NixfTidy.lint] treats the files one after the other and on
    their own: the issues of a run over two lists of files are the
    issues of the first list followed by those of the second, and the
    counts add up. *)
Theorem nixf_lint_concatenates :
  forall (parser : JSONParse NixfTidy.Parsed) timestamp files1 files2 spawn,
  exists r1 r2 r,
    NixfTidy.lint timestamp files1 spawn = Returned r1
    /\ NixfTidy.lint timestamp files2 spawn = Returned r2
    /\ NixfTidy.lint timestamp (files1 ++ files2) spawn = Returned r
    /\ files r = files r1 ++ files r2
    /\ issues r = issues r1 ++ issues r2
    /\ errorCount r = errorCount r1 + errorCount r2
    /\ warningCount r = warningCount r1 + warningCount r2.
Proof.
  intros parser timestamp files1 files2 spawn.
  do 3 eexists. repeat (split; [reflexivity|]). simpl.
  rewrite !lint_loop_flat_map, flat_map_app. simpl.
  now rewrite !nixf_count_app.
Qed.

Lemma fileIssues_converted {parser : JSONParse NixfTidy.Parsed} spawn f :
  NixfTidy.fileIssues spawn f
  = NixfTidy.convertDiagnosticsToIssues f (fileDiagnostics spawn f).
Proof.
  unfold NixfTidy.fileIssues, NixfTidy.lintOne, fileDiagnostics.
  now destruct (NixfTidy.lintFile f (spawn f)).
Qed.

(** X7.  Every issue of [NixfTidy.lint] names one of the files it was
    asked to lint, and its rule is the [sname] of a diagnostic that
    [lintFile] resolved with for that very file. *)
Theorem nixf_issues_name_linted_files :
  forall (parser : JSONParse NixfTidy.Parsed) timestamp filePaths spawn r,
    NixfTidy.lint timestamp filePaths spawn = Returned r ->
    Forall (fun i => In (issue_file i) filePaths
                     /\ exists d, In d (fileDiagnostics spawn (issue_file i))
                                  /\ issue_rule i = Some (sname d))
           (issues r).
Proof.
  intros parser timestamp filePaths spawn r H.
  destruct (NixfTidy_lint_returned _ _ _ _ H) as (_ & _ & -> & _).
  apply Forall_forall. intros i Hi.
  apply in_flat_map in Hi. destruct Hi as (f & Hf & Hi).
  rewrite fileIssues_converted in Hi.
  unfold NixfTidy.convertDiagnosticsToIssues in Hi.
  apply in_map_iff in Hi. destruct Hi as (d & <- & Hd). simpl.
  split; [exact Hf|]. now exists d.
Qed.

Lemma nixf_issues_name_linted_files_witness :
  exists r,
    NixfTidy.lint (parser := nixf_runtime) "2025-01-01T00:00:00.000Z"
                  ["empty.nix"; "test.nix"]
                  (fun f => if String.eqb f "test.nix"
                            then NixfTidy.Closes (Some 0%Z) "[unused_diagnostic]" ""
                            else NixfTidy.Closes (Some 0%Z) "" "") = Returned r
    /\ Forall (fun i => In (issue_file i) ["empty.nix"; "test.nix"]
                        /\ exists d,
                             In d (fileDiagnostics (parser := nixf_runtime)
                                     (fun f => if String.eqb f "test.nix"
                                               then NixfTidy.Closes (Some 0%Z)
                                                      "[unused_diagnostic]" ""
                                               else NixfTidy.Closes (Some 0%Z) "" "")
                                     (issue_file i))
                             /\ issue_rule i = Some (sname d))
              (issues r).
Proof.
  eexists. split; [vm_compute; reflexivity|].
  apply (nixf_issues_name_linted_files nixf_runtime
           "2025-01-01T00:00:00.000Z" ["empty.nix"; "test.nix"]
           (fun f => if String.eqb f "test.nix"
                     then NixfTidy.Closes (Some 0%Z) "[unused_diagnostic]" ""
                     else NixfTidy.Closes (Some 0%Z) "" "")).
  vm_compute. reflexivity.
Defined.

(** X8.  [lintFile] resolves exactly when the child closes with code 0
    or with nothing on stderr, and its stdout is blank (no diagnostic)
    or parses (the array, or the lone object wrapped).  A child that
    closes with another code and text on stderr rejects even when its
    stdout parses. *)
Theorem lintFile_resolves_iff :
  forall (parser : JSONParse NixfTidy.Parsed) filePath child diagnostics,
    NixfTidy.lintFile filePath child = Returned diagnostics
    <-> exists code out err,
          child = NixfTidy.Closes code out err
          /\ (code = Some 0%Z \/ err = "")
          /\ ((trim out = "" /\ diagnostics = [])
              \/ (trim out <> ""
                  /\ (JSON_parse out = Some (NixfTidy.ParsedArray diagnostics)
                      \/ exists d, JSON_parse out = Some (NixfTidy.ParsedObject d)
                                   /\ diagnostics = [d]))).
Proof.
  intros parser filePath child diagnostics. split.
  - destruct child as [e|m|code out err]; simpl; try discriminate.
    intros H. exists code, out, err. split; [reflexivity|].
    assert (Hgate : (match code with Some 0%Z => false | _ => true end
                     && truthy err) = false).
    { destruct (_ && truthy err); [discriminate | reflexivity]. }
    rewrite Hgate in H.
    split.
    + apply andb_false_iff in Hgate. destruct Hgate as [Hc|He].
      * left. destruct code as [[| |]|]; try discriminate. reflexivity.
      * right. destruct err; [reflexivity | discriminate].
    + unfold truthy in H. destruct (trim out) eqn:Ht; simpl in H.
      * left. now injection H as <-.
      * right. split; [discriminate|].
        destruct (JSON_parse out) as [[ds|d]|]; try discriminate.
        -- left. now injection H as <-.
        -- right. exists d. now injection H as <-.
  - intros (code & out & err & -> & Hgate & Hout). simpl.
    assert (Hg : (match code with Some 0%Z => false | _ => true end
                  && truthy err) = false).
    { destruct Hgate as [->| ->]; [reflexivity | apply andb_false_r]. }
    rewrite Hg.
    destruct Hout as [(Ht & ->)|(Ht & Hp)].
    + now rewrite Ht.
    + unfold truthy. destruct (trim out); [congruence|]. simpl.
      destruct Hp as [->|(d & -> & ->)]; reflexivity.
Qed.




End MoreNixf.

Section MessageFormat.
Import Text JS Schemas Contract Facts Samples.

Lemma replace_without_braces m arg :
  find_braces m = None -> replace_braces m arg = m.
Proof. unfold replace_braces. now intros ->. Qed.

(** X10.  [formatMessage] leaves a message without the placeholder {}
    as it is, whatever the arguments. *)
Theorem formatMessage_without_placeholder :
  forall d, find_braces (message d) = None ->
            NixfTidy.formatMessage d = message d.
Proof.
  intros d H. unfold NixfTidy.formatMessage.
  induction (args d) as [|arg rest IH]; simpl; [reflexivity|].
  now rewrite (replace_without_braces _ arg H).
Qed.

Lemma formatMessage_without_placeholder_witness :
  NixfTidy.formatMessage
    {| args := ["x"; "y"]; kind := 1%Z; message := "fatal error";
       range := {| lCur := cursor 0 0 0; rCur := cursor 0 1 1 |};
       severity := 0%Z; sname := "fatal-rule" |}
  = "fatal error".
Proof.
  apply (formatMessage_without_placeholder
           {| args := ["x"; "y"]; kind := 1%Z; message := "fatal error";
              range := {| lCur := cursor 0 0 0; rCur := cursor 0 1 1 |};
              severity := 0%Z; sname := "fatal-rule" |}).
  reflexivity.
Defined.

Lemma find_braces_step c c2 t :
  find_braces (String c (String c2 t))
  = if Ascii.eqb c "{" && Ascii.eqb c2 "}" then Some (EmptyString, t)
    else match find_braces (String c2 t) with
         | Some (a, b) => Some (String c a, b)
         | None => None
         end.
Proof. reflexivity. Qed.

Lemma find_braces_first pre post :
  find_braces pre = None ->
  find_braces (pre ++ "{}" ++ post)%string = Some (pre, post).
Proof.
  induction pre as [|c pre IH]; [reflexivity|].
  intros Hpre. destruct pre as [|c2 pre].
  - simpl. destruct (Ascii.eqb c "{"); reflexivity.
  - rewrite find_braces_step in Hpre.
    change (String c (String c2 pre) ++ "{}" ++ post)%string
      with (String c (String c2 (pre ++ "{}" ++ post)%string)).
    rewrite find_braces_step.
    destruct (Ascii.eqb c "{" && Ascii.eqb c2 "}"); [discriminate|].
    change (String c2 (pre ++ "{}" ++ post)%string)
      with (String c2 pre ++ "{}" ++ post)%string.
    destruct (find_braces (String c2 pre)) as [[a b]|]; [discriminate|].
    now rewrite (IH eq_refl).
Qed.

Lemma substitution_without_dollar matched before after arg :
  free_of "$" arg = true -> get_substitution matched before after arg = arg.
Proof.
  induction arg as [|c arg IH]; simpl; [reflexivity|].
  intros H. apply andb_prop in H. destruct H as [Hc Harg].
  apply negb_true_iff in Hc. rewrite Hc, (IH Harg). reflexivity.
Qed.

Lemma replace_first_placeholder arg pre post :
  free_of "$" arg = true -> find_braces pre = None ->
  replace_braces (pre ++ "{}" ++ post)%string arg = (pre ++ arg ++ post)%string.
Proof.
  intros Harg Hpre. unfold replace_braces.
  now rewrite (find_braces_first pre post Hpre),
    (substitution_without_dollar _ _ _ _ Harg).
Qed.

(** X11.  [formatMessage] puts its first argument, when it holds no '$',
    in the place of the first {} of the message, and goes on with the
    other arguments on the message so filled. *)
Theorem formatMessage_fills_first_placeholder :
  forall arg rest pre post k rg sv sn,
    free_of "$" arg = true -> find_braces pre = None ->
    NixfTidy.formatMessage
      {| args := arg :: rest; kind := k; message := (pre ++ "{}" ++ post)%string;
         range := rg; severity := sv; sname := sn |}
    = NixfTidy.formatMessage
        {| args := rest; kind := k; message := (pre ++ arg ++ post)%string;
           range := rg; severity := sv; sname := sn |}.
Proof.
  intros arg rest pre post k rg sv sn Harg Hpre.
  unfold NixfTidy.formatMessage. cbn [args message fold_left].
  now rewrite (replace_first_placeholder arg pre post Harg Hpre).
Qed.

Lemma formatMessage_fills_first_placeholder_witness :
  NixfTidy.formatMessage unused_diagnostic = "unused variable `unusedVar`".
Proof.
  change unused_diagnostic
    with {| args := "unusedVar" :: []; kind := 42%Z;
            message := ("unused variable `" ++ "{}" ++ "`")%string;
            range := {| lCur := cursor 2 4 25; rCur := cursor 2 13 34 |};
            severity := 2%Z; sname := "sema-unused-binding" |}.
  rewrite (formatMessage_fills_first_placeholder
             "unusedVar" [] "unused variable `" "`" 42%Z
             {| lCur := cursor 2 4 25; rCur := cursor 2 13 34 |}
             2%Z "sema-unused-binding");
    reflexivity.
Defined.

End MessageFormat.

(* ================================================================== *)
(** ** Further properties of the Nix test reporter *)

Section ReporterTests.
Import Text NixReporter Contract Facts Samples.

Lemma strip_prefix_first c p line rest :
  strip_prefix (String c p) line = Some rest -> exists tl, line = String c tl.
Proof.
  destruct line as [|d tl]; simpl; [discriminate|].
  destruct (Ascii.eqb c d) eqn:E; [|discriminate].
  apply Ascii.eqb_eq in E. subst d. intros _. now exists tl.
Qed.

Lemma test_line_readable line p :
  match_test_line line = Some p -> readable line = true.
Proof.
  unfold match_test_line.
  destruct (strip_prefix "✅" line) as [rest|] eqn:E1.
  - destruct (strip_prefix_first _ _ _ _ E1) as (tl & ->). reflexivity.
  - destruct (strip_prefix "❌" line) as [rest|] eqn:E2; [|discriminate].
    destruct (strip_prefix_first _ _ _ _ E2) as (tl & ->). reflexivity.
Qed.

Lemma unreadable_is_no_test_line line :
  readable line = false -> match_test_line line = None.
Proof.
  intros H. destruct (match_test_line line) as [p|] eqn:E; [|reflexivity].
  rewrite (test_line_readable _ _ E) in H. discriminate.
Qed.

Lemma step_unreadable st line : readable line = false -> step st line = st.
Proof.
  unfold readable, step. intros H.
  destruct (has_content line); simpl in *; [|reflexivity].
  destruct (is_warning line); [reflexivity | discriminate].
Qed.

Lemma step_readable st line :
  readable line = true ->
  step st line
  = match match_test_line line with
    | Some (mark, test_name) => on_test_line mark test_name st
    | None =>
        if in_error_section st then on_detail_line line st
        else match match_summary line with
             | Some (face, p, t) => on_summary_line face p t st
             | None => if is_error_line line then on_error_line line st else st
             end
    end.
Proof.
  unfold readable, step. intros H.
  destruct (has_content line); simpl in *; [|discriminate].
  destruct (is_warning line); [discriminate | reflexivity].
Qed.

Lemma test_lines_snoc seen line :
  test_lines (seen ++ [line])
  = test_lines seen ++ match match_test_line line with
                       | Some p => [p]
                       | None => []
                       end.
Proof.
  unfold test_lines. rewrite flat_map_app. simpl. now rewrite app_nil_r.
Qed.

Lemma outline_snoc ts t : outline (ts ++ [t]) = outline ts ++ [(name t, state t)].
Proof. unfold outline. now rewrite map_app. Qed.

Lemma outline_two (rest : list TestCase) t1 t2 :
  outline (rest ++ [t1; t2])
  = (outline rest ++ [(name t1, state t1)]) ++ [(name t2, state t2)].
Proof. unfold outline. rewrite map_app, <- app_assoc. reflexivity. Qed.

Lemma step_tests_invariant seen st line :
  tests_invariant seen st -> tests_invariant (seen ++ [line]) (step st line).
Proof.
  unfold tests_invariant. rewrite test_lines_snoc.
  destruct (readable line) eqn:Hread.
  2:{ rewrite (step_unreadable st line Hread),
        (unreadable_is_no_test_line line Hread), app_nil_r. auto. }
  rewrite (step_readable st line Hread).
  destruct st as [tests r ht mid nm details inerr].
  unfold pending. simpl.
  intros (syn & rest & Htests & Hsyn & Hout & Hnone & Hsome & Hmid & Hwf & Hdet & Hname).
  destruct (match_test_line line) as [[mark test_name]|] eqn:Htest.
  - pose proof (test_line_name _ _ _ Htest) as Hn.
    unfold on_test_line, save_previous, pending, add_test, qualified.
    cbn [current_tests overall_reason has_tests module_id current_test_name
         current_error_details in_error_section].
    assert (Hnew : forall errs st', (st' = passed -> errs = []) -> length errs <= 1 ->
               forall n, nonempty n = true ->
               well_formed_test (create_test n (mid ++ "." ++ n) st' errs)).
    { intros errs st' H1 H2 n Hnn. unfold well_formed_test. simpl.
      split; [now destruct n|]. split; [|auto].
      destruct Hmid as [->| ->]; [now left | now right]. }
    rewrite map_app. cbn [map fst snd status_of].
    destruct (nonempty nm && inerr) eqn:Hpend.
    + apply andb_prop in Hpend. destruct Hpend as [Hnm ->].
      set (tf := create_test nm (mid ++ "." ++ nm) failed
                   (if nonempty details then [create_test_error details] else [])).
      assert (Hwf1 : Forall well_formed_test (tests ++ [tf])).
      { apply Forall_app. split; [exact Hwf|]. constructor; [|constructor].
        apply Hnew; [discriminate | destruct (nonempty details); simpl; lia | exact Hnm]. }
      destruct mark; cbn [current_tests overall_reason has_tests module_id
         current_test_name current_error_details in_error_section
         set_current_tests set_overall_reason set_has_tests set_module_id
         set_current_test_name set_current_error_details set_in_error_section
         nonempty andb status_of].
      * exists syn, (rest ++ [tf; create_test test_name (mid ++ "." ++ test_name) passed []]).
        split; [rewrite Htests, <- !app_assoc; reflexivity|].
        split; [exact Hsyn|].
        split; [rewrite outline_two, app_nil_r, <- Hout; reflexivity|].
        split; [discriminate|].
        split; [intros _; left; destruct tests; discriminate|].
        split; [exact Hmid|].
        split; [|split; [reflexivity | discriminate]].
        apply Forall_app. split; [exact Hwf1|].
        constructor; [|constructor]. apply Hnew; auto.
      * exists syn, (rest ++ [tf]). rewrite Hn.
        split; [rewrite Htests, <- !app_assoc; reflexivity|].
        split; [exact Hsyn|].
        split; [rewrite outline_snoc, <- Hout; reflexivity|].
        split; [discriminate|].
        split; [intros _; now right|].
        split; [exact Hmid|].
        split; [exact Hwf1|]. split; [discriminate | reflexivity].
    + assert (Hin : inerr = false).
      { destruct inerr; [|reflexivity]. rewrite (Hname eq_refl) in Hpend. discriminate. }
      rewrite app_nil_r in Hout. subst inerr.
      destruct mark; cbn [current_tests overall_reason has_tests module_id
         current_test_name current_error_details in_error_section
         set_current_tests set_overall_reason set_has_tests set_module_id
         set_current_test_name set_current_error_details set_in_error_section
         nonempty andb status_of].
      * exists syn, (rest ++ [create_test test_name (mid ++ "." ++ test_name) passed []]).
        split; [rewrite Htests, <- !app_assoc; reflexivity|].
        split; [exact Hsyn|].
        split; [rewrite outline_snoc, app_nil_r, <- Hout; reflexivity|].
        split; [discriminate|].
        split; [intros _; left; destruct tests; discriminate|].
        split; [exact Hmid|].
        split; [|split; [exact Hdet | discriminate]].
        apply Forall_app. split; [exact Hwf|].
        constructor; [|constructor]. apply Hnew; auto.
      * exists syn, rest. rewrite Hn.
        split; [exact Htests|].
        split; [exact Hsyn|].
        split; [rewrite <- Hout; reflexivity|].
        split; [discriminate|].
        split; [intros _; now right|].
        split; [exact Hmid|].
        split; [exact Hwf|]. split; [discriminate | reflexivity].
  - rewrite app_nil_r.
    destruct inerr.
    + unfold on_detail_line. cbn [current_error_details].
      destruct (has_content (strip_ansi line)); [destruct (nonempty details)|];
        exists syn, rest; unfold pending; simpl;
        (split; [exact Htests|]); (split; [exact Hsyn|]);
        (split; [exact Hout|]); (split; [exact Hnone|]);
        (split; [exact Hsome|]); (split; [exact Hmid|]);
        (split; [exact Hwf|]); (split; [discriminate | exact Hname]).
    + destruct (match_summary line) as [[[face p] t]|].
      * unfold on_summary_line.
        destruct (_ || negb (p =? t)%string); exists syn, rest; simpl;
          (split; [exact Htests|]); (split; [exact Hsyn|]);
          (split; [exact Hout|]); (split; [exact Hnone|]);
          (split; [exact Hsome|]); (split; [exact Hmid|]);
          (split; [exact Hwf|]); (split; [exact Hdet | exact Hname]).
      * destruct (is_error_line line).
        2:{ exists syn, rest.
            (split; [exact Htests|]); (split; [exact Hsyn|]);
            (split; [exact Hout|]); (split; [exact Hnone|]);
            (split; [exact Hsome|]); (split; [exact Hmid|]);
            (split; [exact Hwf|]); (split; [exact Hdet | exact Hname]). }
        unfold on_error_line. simpl. destruct ht; simpl.
        -- exists syn, rest.
           (split; [exact Htests|]); (split; [exact Hsyn|]);
           (split; [exact Hout|]); (split; [exact Hnone|]);
           (split; [exact Hsome|]); (split; [exact Hmid|]);
           (split; [exact Hwf|]); (split; [exact Hdet | exact Hname]).
        -- destruct (Hnone eq_refl) as [-> Hp].
           destruct syn; [|discriminate]. destruct rest; [|discriminate].
           exists [create_test "evaluation" "compilation.evaluation" failed
                               [create_test_error line]], [].
           split; [reflexivity|].
           split; [right; now exists line|].
           split; [exact Hout|].
           split; [discriminate|].
           split; [intros _; left; discriminate|].
           split; [now right|].
           split; [|split; [exact Hdet | exact Hname]].
           constructor; [|constructor]. unfold well_formed_test. simpl.
           split; [discriminate|]. split; [now right|]. split; [discriminate | lia].
Qed.

Lemma scan_tests_invariant lines : tests_invariant lines (scan lines).
Proof.
  unfold scan.
  induction lines as [|line lines IH] using rev_ind.
  - exists [], []. unfold pending. simpl.
    repeat split; auto; try discriminate. now left.
  - rewrite fold_left_app. simpl. now apply step_tests_invariant.
Qed.

Lemma assemble_tests st : document_tests (assemble st) = current_tests st.
Proof.
  unfold document_tests, assemble.
  destruct (current_tests st) eqn:E; simpl; [reflexivity|].
  now rewrite app_nil_r.
Qed.

(** X12.  The document holds one TestCase per test line of the input, in
    the order of the lines, with the name of the line and the state of
    its glyph; before them stands at most the one evaluation test. *)
Theorem tests_follow_test_lines :
  forall lines,
  exists synthetic rest,
    document_tests (parse_and_save_output lines) = synthetic ++ rest
    /\ evaluation_tests synthetic
    /\ outline rest
       = map (fun p => (snd p, status_of (fst p))) (test_lines lines).
Proof.
  intros lines. unfold parse_and_save_output. rewrite assemble_tests.
  destruct (scan_tests_invariant lines)
    as (syn & rest & Htests & Hsyn & Hout & Hnone & _).
  unfold fold_output, save_remaining.
  destruct (scan lines) as [tests r ht mid nm details inerr].
  unfold pending, add_test in *. simpl in *.
  destruct (nonempty nm && inerr) eqn:Hpend; simpl.
  - assert (ht = true) as ->.
    { destruct ht; [reflexivity|]. now destruct (Hnone eq_refl). }
    simpl. eexists syn, (rest ++ [_]).
    split; [rewrite Htests, <- app_assoc; reflexivity|].
    split; [exact Hsyn|]. now rewrite outline_snoc.
  - rewrite app_nil_r in Hout.
    destruct ht; simpl.
    + now exists syn, rest.
    + destruct (Hnone eq_refl) as [-> _].
      destruct syn; [|discriminate]. destruct rest; [|discriminate].
      destruct (0 <? length lines); simpl.
      * eexists [_], []. split; [reflexivity|].
        split; [right; eexists; reflexivity | exact Hout].
      * exists [], []. split; [reflexivity|]. split; [now left | exact Hout].
Qed.

(** X13.  An empty input gives the document without module and with
    reason passed.  Every other input gives exactly one module; it is
    called "tests" or "compilation" and holds at least one test. *)
Theorem document_shape :
  forall lines,
    (lines = []
     /\ parse_and_save_output lines = {| testModules := []; reason := passed |})
    \/ (lines <> []
        /\ exists m, testModules (parse_and_save_output lines) = [m]
                     /\ tests m <> []
                     /\ (moduleId m = "tests" \/ moduleId m = "compilation")).
Proof.
  intros lines. destruct lines as [|l ls]; [left; split; reflexivity|].
  right. split; [discriminate|].
  set (lines := l :: ls).
  unfold parse_and_save_output.
  destruct (scan_tests_invariant lines)
    as (syn & rest & _ & _ & _ & Hnone & Hsome & Hmid & _).
  unfold fold_output, save_remaining, assemble.
  destruct (scan lines) as [tests r ht mid nm details inerr].
  unfold pending, add_test in *. simpl in *.
  destruct ht; simpl.
  - destruct (nonempty nm && inerr) eqn:Hpend; simpl.
    + destruct tests; simpl; eexists; (split; [reflexivity|]); simpl;
        (split; [discriminate | exact Hmid]).
    + destruct (Hsome eq_refl) as [Hne|]; [|discriminate].
      destruct tests; [congruence|]. simpl.
      eexists; (split; [reflexivity|]); simpl; (split; [discriminate | exact Hmid]).
  - destruct (Hnone eq_refl) as [-> ->]. simpl.
    eexists; (split; [reflexivity|]); simpl; split; [discriminate | now right].
Qed.

(** X14.  Every test of the document has a name, a full name that is
    "tests." or "compilation." followed by the name, no error when it
    passed, and at most one error. *)
Theorem test_cases_well_formed :
  forall lines,
    Forall well_formed_test (document_tests (parse_and_save_output lines)).
Proof.
  intros lines. unfold parse_and_save_output. rewrite assemble_tests.
  destruct (scan_tests_invariant lines)
    as (syn & rest & _ & _ & _ & Hnone & _ & Hmid & Hwf & _ & Hname).
  unfold fold_output, save_remaining.
  destruct (scan lines) as [tests r ht mid nm details inerr].
  unfold pending, add_test, qualified in *. simpl in *.
  assert (Hsyn : well_formed_test
                   (create_test "evaluation" "compilation.evaluation" failed
                                [create_test_error (joined_output lines)])).
  { unfold well_formed_test. simpl.
    split; [discriminate|]. split; [now right|]. split; [discriminate | lia]. }
  destruct (nonempty nm && inerr) eqn:Hpend; simpl.
  - apply andb_prop in Hpend. destruct Hpend as [Hnm _].
    assert (ht = true) as ->.
    { destruct ht; [reflexivity|]. now destruct (Hnone eq_refl). }
    simpl. apply Forall_app. split; [exact Hwf|].
    constructor; [|constructor]. unfold well_formed_test. simpl.
    split; [now destruct nm|].
    split; [destruct Hmid as [->| ->]; [now left | now right]|].
    split; [discriminate|]. destruct (nonempty details); simpl; lia.
  - destruct (negb ht && (0 <? length lines)); simpl; [|exact Hwf].
    apply Forall_app. split; [exact Hwf|]. constructor; [exact Hsyn | constructor].
Qed.

Lemma scan_skips_unreadable lines st :
  fold_left step (filter readable lines) st = fold_left step lines st.
Proof.
  revert st. induction lines as [|l ls IH]; intros st; simpl; [reflexivity|].
  destruct (readable l) eqn:E; simpl; [apply IH|].
  now rewrite (step_unreadable st l E).
Qed.

Lemma test_line_sets_has_tests lines l :
  In l lines -> match_test_line l <> None -> has_tests (scan lines) = true.
Proof.
  intros Hin Hl.
  destruct (scan_tests_invariant lines)
    as (syn & rest & Htests & _ & Hout & Hnone & _).
  destruct (has_tests (scan lines)); [reflexivity|].
  destruct (Hnone eq_refl) as [Hempty Hpend].
  rewrite Hempty in Htests. rewrite Hpend in Hout.
  destruct syn; [|discriminate]. destruct rest; [|discriminate].
  simpl in Hout. symmetry in Hout. apply map_eq_nil in Hout.
  exfalso. unfold test_lines in Hout.
  assert (Hmem : In l lines -> flat_map
            (fun l0 => match match_test_line l0 with Some p => [p] | None => [] end)
            lines <> []).
  { clear Hout. intros H. destruct (match_test_line l) as [p|] eqn:E; [|congruence].
    intros Hnil.
    assert (In p []) as [].
    rewrite <- Hnil. apply in_flat_map. exists l. rewrite E. split; [exact H | now left]. }
  now apply Hmem.
Qed.

(** X15.  When the input holds a test line, blank lines and warning
    lines change nothing: the document is that of the input without
    them. *)
Theorem skipped_lines_do_not_matter :
  forall lines l,
    In l lines -> match_test_line l <> None ->
    parse_and_save_output (filter readable lines) = parse_and_save_output lines.
Proof.
  intros lines l Hin Hl.
  pose proof (test_line_sets_has_tests lines l Hin Hl) as Hht.
  unfold parse_and_save_output, scan in *.
  rewrite scan_skips_unreadable.
  unfold fold_output.
  assert (Hkeep : has_tests (save_remaining (fold_left step lines initial)) = true).
  { unfold save_remaining. destruct (pending _); [|exact Hht]. exact Hht. }
  now rewrite Hkeep.
Qed.

Lemma skipped_lines_do_not_matter_witness :
  parse_and_save_output (filter readable passing_output)
  = parse_and_save_output passing_output.
Proof.
  apply (skipped_lines_do_not_matter passing_output "✅ testBasicMath").
  - left. reflexivity.
  - vm_compute. discriminate.
Defined.

Lemma step_unrecognized st line :
  match_test_line line = None -> reaches_error line = false ->
  in_error_section st = false ->
  exists r, step st line = set_overall_reason r st.
Proof.
  intros Htest Herr Hsection. unfold reaches_error in Herr.
  rewrite Htest in Herr.
  destruct (readable line) eqn:Hread.
  - rewrite (step_readable st line Hread), Htest, Hsection.
    simpl in Herr.
    destruct (match_summary line) as [[[face p] t]|].
    + unfold on_summary_line. destruct (_ || _); [now eexists|].
      exists (overall_reason st). now destruct st.
    + rewrite Herr. exists (overall_reason st). now destruct st.
  - rewrite (step_unreadable st line Hread).
    exists (overall_reason st). now destruct st.
Qed.

Lemma scan_unrecognized lines :
  (forall l, In l lines -> match_test_line l = None /\ reaches_error l = false) ->
  exists r, scan lines = set_overall_reason r initial.
Proof.
  unfold scan.
  induction lines as [|line lines IH] using rev_ind; intros Hall.
  - now exists passed.
  - rewrite fold_left_app. simpl.
    destruct IH as (r & ->); [intros l Hl; apply Hall, in_or_app; now left|].
    destruct (Hall line) as [H1 H2]; [apply in_or_app; right; now left|].
    destruct (step_unrecognized (set_overall_reason r initial) line H1 H2 eq_refl)
      as (r' & ->).
    now exists r'.
Qed.

(** X16.  An input that is not empty, without a test line and without a
    line that reaches the error branch, is reported whole as one
    evaluation failure: also an output of blank lines or warnings only,
    and a lone summary line. *)
Theorem unrecognized_output_is_folded :
  forall lines,
    lines <> [] ->
    (forall l, In l lines -> match_test_line l = None /\ reaches_error l = false) ->
    parse_and_save_output lines = evaluation_failure (joined_output lines).
Proof.
  intros lines Hne Hall.
  destruct (scan_unrecognized lines Hall) as (r & Hscan).
  unfold parse_and_save_output. rewrite Hscan.
  destruct lines; [congruence | reflexivity].
Qed.

Lemma unrecognized_output_is_folded_witness :
  parse_and_save_output ["warning: unknown setting"; ""; "🎉 0/0 successful"]
  = evaluation_failure
      (joined_output ["warning: unknown setting"; ""; "🎉 0/0 successful"]).
Proof.
  apply unrecognized_output_is_folded.
  - discriminate.
  - intros l [<-|[<-|[<-|[]]]]; vm_compute; split; reflexivity.
Defined.

End ReporterTests.

Section ReporterDetails.
Import Text NixReporter Contract Facts Samples.

Lemma collected_cons d ds :
  collected (d :: ds)
  = if readable d && has_content (strip_ansi d)
    then strip_ansi d :: collected ds
    else collected ds.
Proof.
  unfold collected. simpl.
  destruct (readable d); simpl; [|reflexivity].
  now destruct (has_content (strip_ansi d)).
Qed.

(** The lines after a failing test only add to its details. *)
Lemma details_are_collected details st :
  in_error_section st = true ->
  (forall d, In d details -> match_test_line d = None) ->
  fold_left step details st
  = set_current_error_details
      (join_details (current_error_details st) (collected details)) st.
Proof.
  revert st. induction details as [|d ds IH]; intros st Hsection Hnone.
  - simpl. now destruct st.
  - simpl. rewrite collected_cons.
    assert (Hd : match_test_line d = None) by (apply Hnone; now left).
    assert (Hds : forall x, In x ds -> match_test_line x = None)
      by (intros; apply Hnone; now right).
    destruct (readable d) eqn:Hread.
    + rewrite (step_readable st d Hread), Hd, Hsection.
      unfold on_detail_line.
      cbn [andb join_details].
      destruct (has_content (strip_ansi d)); [|now rewrite IH].
      destruct st as [tests r ht mid nm det inerr].
      cbn [current_error_details in_error_section] in *.
      destruct (nonempty det) eqn:E; rewrite IH; auto;
        unfold set_current_error_details;
        cbn [current_tests overall_reason has_tests module_id current_test_name
             current_error_details in_error_section join_details];
        now rewrite E.
    + rewrite (step_unreadable st d Hread). cbn [andb]. now rewrite IH.
Qed.

Lemma join_details_nonempty acc pieces :
  nonempty acc = true -> nonempty (join_details acc pieces) = true.
Proof.
  revert acc. induction pieces as [|p ps IH]; intros acc Hacc; simpl; [exact Hacc|].
  rewrite Hacc. apply IH. now destruct acc.
Qed.

Lemma collected_nonempty details :
  Forall (fun p => nonempty p = true) (collected details).
Proof.
  unfold collected. apply Forall_forall. intros p Hp.
  apply filter_In in Hp. destruct Hp as [_ Hp].
  unfold has_content in Hp. now apply andb_prop in Hp.
Qed.

Lemma failure_message_joined details :
  (if nonempty (join_details "" (collected details))
   then [create_test_error (join_details "" (collected details))]
   else [create_test_error "Test failed"])
  = [create_test_error (failure_message details)].
Proof.
  unfold failure_message.
  pose proof (collected_nonempty details) as Hall.
  destruct (collected details) as [|p ps]; [reflexivity|].
  inversion Hall as [|? ? Hp _]; subst.
  simpl. now rewrite (join_details_nonempty p ps Hp).
Qed.

(** X17.  A failing test line followed, up to the end of the input, by
    lines that are no test lines: the last test of the document is that
    test, failed, with one error.  Its message is the lines that are
    read, without their colour sequences, those left with content,
    joined by backslash and n; it is "Test failed" when there is none.
    The reason is failed. *)
Theorem failing_test_details :
  forall before line test_name details,
    match_test_line line = Some (cross, test_name) ->
    (forall d, In d details -> match_test_line d = None) ->
    exists m earlier,
      parse_and_save_output (before ++ line :: details)
      = {| testModules := [m]; reason := failed |}
      /\ tests m
         = earlier
           ++ [create_test test_name (moduleId m ++ "." ++ test_name) failed
                           [create_test_error (failure_message details)]].
Proof.
  intros before line test_name details Hline Hnone.
  unfold parse_and_save_output, scan.
  rewrite fold_left_app. simpl.
  pose proof (scan_tests_invariant before)
    as (syn & rest & _ & _ & _ & _ & _ & _ & _ & Hdet & Hname).
  unfold scan in Hdet, Hname.
  rewrite (step_readable _ line (test_line_readable _ _ Hline)), Hline.
  pose proof (test_line_name _ _ _ Hline) as Hn.
  set (st := fold_left step before initial) in *.
  assert (Hst : exists earlier,
             on_test_line cross test_name st
             = {| current_tests := earlier; overall_reason := failed;
                  has_tests := true; module_id := module_id st;
                  current_test_name := test_name;
                  current_error_details := "";
                  in_error_section := true |}).
  { unfold on_test_line, save_previous, pending.
    destruct st as [tests r ht mid nm det inerr]. simpl in *.
    destruct (nonempty nm && inerr) eqn:Hpend; simpl; [now eexists|].
    assert (inerr = false) as ->.
    { destruct inerr; [|reflexivity]. rewrite (Hname eq_refl) in Hpend. discriminate. }
    rewrite (Hdet eq_refl). now eexists. }
  destruct Hst as (earlier & ->).
  rewrite details_are_collected; [|reflexivity | exact Hnone].
  unfold save_remaining, fold_output, assemble, pending, add_test, qualified.
  cbn [current_tests overall_reason has_tests module_id current_test_name
       current_error_details in_error_section set_current_error_details
       set_current_tests negb andb].
  rewrite Hn. cbn [andb].
  rewrite failure_message_joined.
  exists {| moduleId := module_id st;
            tests := earlier
                     ++ [create_test test_name (module_id st ++ "." ++ test_name)
                           failed [create_test_error (failure_message details)]] |},
         earlier.
  split; [|reflexivity].
  destruct earlier; reflexivity.
Qed.

Lemma failing_test_details_witness :
  exists m earlier,
    parse_and_save_output
      (["✅ testA"] ++ "❌ testB" :: ["detail1"; "detail2"; "🎉 1/2 successful"])
    = {| testModules := [m]; reason := failed |}
    /\ tests m
       = earlier
         ++ [create_test "testB" (moduleId m ++ "." ++ "testB") failed
               [create_test_error
                  (failure_message ["detail1"; "detail2"; "🎉 1/2 successful"])]].
Proof.
  apply (failing_test_details ["✅ testA"] "❌ testB" "testB"
           ["detail1"; "detail2"; "🎉 1/2 successful"]).
  - vm_compute. reflexivity.
  - intros d [<-|[<-|[<-|[]]]]; vm_compute; reflexivity.
Defined.

End ReporterDetails.

Section ColourSequences.
Import Text NixReporter Contract Facts Samples.

Lemma strip_ansi_other c tl :
  Ascii.eqb c ESC = false -> strip_ansi (String c tl) = String c (strip_ansi tl).
Proof. intros H. simpl. now rewrite H. Qed.

Lemma strip_ansi_escape_alone b tl :
  Ascii.eqb b "[" = false ->
  strip_ansi (String ESC (String b tl)) = String ESC (strip_ansi (String b tl)).
Proof. intros H. simpl. now rewrite H. Qed.

Lemma strip_ansi_sequence params :
  strip_ansi (String ESC (String "[" params))
  = match colour_end params with
    | Some rest => strip_ansi rest
    | None => String ESC (String "[" (strip_ansi params))
    end.
Proof.
  assert (Hskip : forall t,
    (fix skip (t : string) : option string :=
       match t with
       | EmptyString => None
       | String d t' =>
           if is_digit d || Ascii.eqb d ";" then skip t'
           else if Ascii.eqb d "m" then Some (strip_ansi t') else None
       end) t
    = match colour_end t with Some rest => Some (strip_ansi rest) | None => None end).
  { induction t as [|d t IH]; [reflexivity|]. simpl.
    destruct (is_digit d || Ascii.eqb d ";"); [exact IH|].
    now destruct (Ascii.eqb d "m"). }
  change (strip_ansi (String ESC (String "[" params)))
    with (match (fix skip (t : string) : option string :=
                   match t with
                   | EmptyString => None
                   | String d t' =>
                       if is_digit d || Ascii.eqb d ";" then skip t'
                       else if Ascii.eqb d "m" then Some (strip_ansi t') else None
                   end) params with
          | Some rest => rest
          | None => String ESC (strip_ansi (String "[" params))
          end).
  rewrite Hskip.
  destruct (colour_end params); [reflexivity|].
  now rewrite (strip_ansi_other "[" params eq_refl).
Qed.

Lemma colour_end_params params rest :
  colour_params params = true ->
  colour_end (params ++ String "m" rest)%string = Some rest.
Proof.
  induction params as [|c ps IH]; simpl; [reflexivity|].
  intros H. apply andb_prop in H. destruct H as [Hc Hps].
  rewrite Hc. now apply IH.
Qed.

Lemma strip_ansi_plain s : free_of ESC s = true -> strip_ansi s = s.
Proof.
  induction s as [|c s IH]; [reflexivity|].
  simpl free_of. intros H. apply andb_prop in H. destruct H as [Hc Hs].
  apply negb_true_iff in Hc.
  now rewrite (strip_ansi_other c s Hc), (IH Hs).
Qed.

Lemma strip_ansi_app_plain pre s :
  free_of ESC pre = true -> strip_ansi (pre ++ s)%string = (pre ++ strip_ansi s)%string.
Proof.
  induction pre as [|c pre IH]; [reflexivity|].
  simpl free_of. intros H. apply andb_prop in H. destruct H as [Hc Hs].
  apply negb_true_iff in Hc.
  change (String c pre ++ s)%string with (String c (pre ++ s)%string).
  now rewrite (strip_ansi_other c _ Hc), (IH Hs).
Qed.

(** X18.  [strip_ansi] removes a colour sequence (escape, '[', digits
    and ';', 'm') that follows text without escape character, keeps that
    text, and goes on after the sequence. *)
Theorem strip_ansi_removes_colour :
  forall pre params rest,
    free_of ESC pre = true -> colour_params params = true ->
    strip_ansi (pre ++ String ESC (String "[" (params ++ String "m" rest)))%string
    = (pre ++ strip_ansi rest)%string.
Proof.
  intros pre params rest Hpre Hparams.
  rewrite (strip_ansi_app_plain pre _ Hpre), strip_ansi_sequence.
  now rewrite (colour_end_params params rest Hparams).
Qed.

Lemma strip_ansi_removes_colour_witness :
  strip_ansi ("1 " ++ String ESC (String "[" ("31;1" ++ String "m" "5")))%string
  = ("1 " ++ strip_ansi "5")%string.
Proof.
  apply (strip_ansi_removes_colour "1 " "31;1" "5"); reflexivity.
Defined.

Lemma colour_end_shorter params rest :
  colour_end params = Some rest -> String.length rest < String.length params.
Proof.
  revert rest. induction params as [|c ps IH]; simpl; [discriminate|].
  intros rest. destruct (is_digit c || Ascii.eqb c ";").
  - intros H. specialize (IH _ H). lia.
  - destruct (Ascii.eqb c "m"); [|discriminate]. intros [= <-]. lia.
Qed.

Lemma strip_ansi_length_bounded n :
  forall s, String.length s <= n -> String.length (strip_ansi s) <= String.length s.
Proof.
  induction n as [|n IH]; intros s Hlen.
  - destruct s; [simpl; lia | simpl in Hlen; lia].
  - destruct s as [|c tl]; [simpl; lia|].
    simpl in Hlen.
    assert (Htl : String.length (strip_ansi tl) <= String.length tl) by (apply IH; lia).
    destruct (Ascii.eqb c ESC) eqn:Hc.
    + apply Ascii.eqb_eq in Hc. subst c.
      destruct tl as [|b params].
      * simpl. lia.
      * destruct (Ascii.eqb b "[") eqn:Hb.
        -- apply Ascii.eqb_eq in Hb. subst b. rewrite strip_ansi_sequence.
           destruct (colour_end params) as [rest|] eqn:Hend.
           ++ pose proof (colour_end_shorter _ _ Hend) as Hshort.
              simpl in *. assert (String.length (strip_ansi rest) <= String.length rest)
                by (apply IH; lia). lia.
           ++ simpl in *. assert (String.length (strip_ansi params)
                                  <= String.length params) by (apply IH; lia). lia.
        -- rewrite (strip_ansi_escape_alone b params Hb).
           simpl String.length in *. lia.
    + rewrite (strip_ansi_other c tl Hc). simpl. lia.
Qed.

(** X19.  [strip_ansi] leaves a text without escape character as it is,
    and its result is never longer than the text. *)
Theorem strip_ansi_keeps_plain_text :
  forall s,
    (free_of ESC s = true -> strip_ansi s = s)
    /\ String.length (strip_ansi s) <= String.length s.
Proof.
  intros s. split; [apply strip_ansi_plain|].
  now apply (strip_ansi_length_bounded (String.length s)).
Qed.

Lemma strip_ansi_keeps_plain_text_witness :
  strip_ansi "/tmp/nix-123/expected.nix --- Nix" = "/tmp/nix-123/expected.nix --- Nix".
Proof.
  apply (proj1 (strip_ansi_keeps_plain_text "/tmp/nix-123/expected.nix --- Nix")).
  reflexivity.
Defined.

End ColourSequences.

Section CaptureAndMain.
Import Text NixReporter Contract Facts Samples.







End CaptureAndMain.

(* ================================================================== *)
(** ** Properties of the command line *)

Section CommandLine.
Import Text NixReporter NixCli Contract Facts Samples.

Lemma strip_prefix_append p s v :
  strip_prefix p s = Some v -> s = (p ++ v)%string.
Proof.
  revert s. induction p as [|a p IH]; intros s; simpl.
  - now intros [= ->].
  - destruct s as [|b s]; [discriminate|].
    destruct (Ascii.eqb a b) eqn:E; [|discriminate].
    apply Ascii.eqb_eq in E. subst b. intros H. now rewrite (IH _ H).
Qed.

Lemma arg_loop_cons arg rest positional s :
  arg_loop (arg :: rest) positional s
  = match strip_prefix "--project-root=" arg with
    | Some v => after_shift rest positional (set_PROJECT_ROOT v s)
    | None =>
    if String.eqb arg "--project-root" then
      match shift positional with
      | Exits n => Exits n
      | Continues [] => Exits 1
      | Continues (v :: p) => arg_loop rest p (set_PROJECT_ROOT v s)
      end
    else if String.eqb arg "--passthrough"
    then after_shift rest positional (set_PASSTHROUGH true s)
    else
    match strip_prefix "--test-file=" arg with
    | Some v => after_shift rest positional (set_TEST_FILE v s)
    | None =>
    match strip_prefix "--timeout=" arg with
    | Some v => after_shift rest positional (set_MAX_EXECUTION_TIME v s)
    | None =>
    match strip_prefix "--max-output=" arg with
    | Some v => after_shift rest positional (set_MAX_OUTPUT_LINES v s)
    | None =>
    if String.eqb arg "--help" then Exits 0
    else after_shift rest positional (add_TEST_ARG arg s)
    end end end end.
Proof. reflexivity. Qed.

(** Once [shift] has run ahead of the loop, the loop cannot finish. *)
Lemma loop_behind_never_continues args :
  forall positional s,
    length positional < length args ->
    exists n, arg_loop args positional s = Exits n
              /\ (~ In "--help" args -> n = 1).
Proof.
  induction args as [|arg rest IH]; intros positional s Hlen; [simpl in Hlen; lia|].
  assert (Hshift : forall s',
             exists n, after_shift rest positional s' = Exits n
                       /\ (~ In "--help" (arg :: rest) -> n = 1)).
  { intros s'. unfold after_shift. destruct positional as [|x p]; simpl.
    - exists 1. auto.
    - destruct (IH p s') as (n & -> & Hn); [simpl in Hlen; lia|].
      exists n. split; [reflexivity|]. intros Hno. apply Hn. intros Hi. apply Hno. now right. }
  rewrite arg_loop_cons.
  destruct (strip_prefix "--project-root=" arg); [apply Hshift|].
  destruct (String.eqb arg "--project-root").
  { destruct positional as [|x [|v p]]; simpl.
    - exists 1. auto.
    - exists 1. auto.
    - destruct (IH p (set_PROJECT_ROOT v s)) as (n & -> & Hn); [simpl in Hlen; lia|].
      exists n. split; [reflexivity|]. intros Hno. apply Hn. intros Hi. apply Hno. now right. }
  destruct (String.eqb arg "--passthrough"); [apply Hshift|].
  destruct (strip_prefix "--test-file=" arg); [apply Hshift|].
  destruct (strip_prefix "--timeout=" arg); [apply Hshift|].
  destruct (strip_prefix "--max-output=" arg); [apply Hshift|].
  destruct (String.eqb arg "--help") eqn:Hhelp; [|apply Hshift].
  exists 0. split; [reflexivity|].
  intros Hno. exfalso. apply Hno. left. now apply String.eqb_eq.
Qed.

Lemma loop_with_space_form args :
  forall positional s,
    length positional = length args ->
    In "--project-root" args ->
    exists n, arg_loop args positional s = Exits n
              /\ (~ In "--help" args -> n = 1).
Proof.
  induction args as [|arg rest IH]; intros positional s Hlen Hin; [contradiction|].
  destruct positional as [|x p]; [discriminate|].
  simpl in Hlen. injection Hlen as Hlen.
  rewrite arg_loop_cons.
  destruct (String.eqb arg "--project-root") eqn:Hroot.
  - apply String.eqb_eq in Hroot. subst arg. simpl.
    destruct p as [|v p]; [exists 1; auto|].
    destruct (loop_behind_never_continues rest p (set_PROJECT_ROOT v s))
      as (n & -> & Hn); [simpl in Hlen; lia|].
    exists n. split; [reflexivity|]. intros Hno. apply Hn. intros Hi. apply Hno. now right.
  - assert (Hrest : In "--project-root" rest).
    { destruct Hin as [->|H]; [|exact H]. now rewrite String.eqb_refl in Hroot. }
    assert (Hshift : forall s',
               exists n, after_shift rest (x :: p) s' = Exits n
                         /\ (~ In "--help" (arg :: rest) -> n = 1)).
    { intros s'. unfold after_shift. simpl.
      destruct (IH p s' Hlen Hrest) as (n & -> & Hn).
      exists n. split; [reflexivity|]. intros Hno. apply Hn. intros Hi. apply Hno. now right. }
    destruct (strip_prefix "--project-root=" arg); [apply Hshift|].
    destruct (String.eqb arg "--passthrough"); [apply Hshift|].
    destruct (strip_prefix "--test-file=" arg); [apply Hshift|].
    destruct (strip_prefix "--timeout=" arg); [apply Hshift|].
    destruct (strip_prefix "--max-output=" arg); [apply Hshift|].
    destruct (String.eqb arg "--help") eqn:Hhelp; [|apply Hshift].
    exists 0. split; [reflexivity|].
    intros Hno. exfalso. apply Hno. left. now apply String.eqb_eq.
Qed.

Lemma space_form_exit args :
  In "--project-root" args -> exists n, parse_arguments args = Exits n.
Proof.
  intros Hin. unfold parse_arguments.
  destruct (loop_with_space_form args args defaults eq_refl Hin) as (n & H & _).
  now exists n.
Qed.

(** X22.  When an argument is exactly --project-root (the path given as
    the next argument), the argument loop never finishes: the script
    exits, with status 1 unless --help is among the arguments. *)
Theorem space_form_project_root_exits :
  forall args,
    In "--project-root" args ->
    exists n, parse_arguments args = Exits n
              /\ (~ In "--help" args -> n = 1).
Proof.
  intros args Hin. unfold parse_arguments.
  now apply loop_with_space_form.
Qed.

Lemma space_form_project_root_exits_witness :
  exists n,
    parse_arguments ["--project-root"; "/home/user/project"; "--passthrough"] = Exits n
    /\ (~ In "--help" ["--project-root"; "/home/user/project"; "--passthrough"] -> n = 1).
Proof.
  apply (space_form_project_root_exits
           ["--project-root"; "/home/user/project"; "--passthrough"]).
  left. reflexivity.
Defined.

Lemma settled_after s arg rest s' :
  PROJECT_ROOT s' = match strip_prefix "--project-root=" arg with
                    | Some v => v | None => PROJECT_ROOT s end ->
  PASSTHROUGH s' = (if String.eqb arg "--passthrough" then true else PASSTHROUGH s) ->
  TEST_FILE s' = match strip_prefix "--test-file=" arg with
                 | Some v => v | None => TEST_FILE s end ->
  MAX_EXECUTION_TIME s' = match strip_prefix "--timeout=" arg with
                          | Some v => v | None => MAX_EXECUTION_TIME s end ->
  MAX_OUTPUT_LINES s' = match strip_prefix "--max-output=" arg with
                        | Some v => v | None => MAX_OUTPUT_LINES s end ->
  TEST_ARGS s' = (if is_option arg then TEST_ARGS s else TEST_ARGS s ++ [arg]) ->
  settled s' rest = settled s (arg :: rest).
Proof.
  unfold settled, last_value. cbn [fold_left existsb filter].
  intros -> -> -> -> -> ->.
  f_equal.
  - destruct (String.eqb arg "--passthrough"); [|reflexivity].
    now rewrite orb_true_r.
  - destruct (is_option arg); cbn [negb]; [reflexivity|].
    now rewrite <- app_assoc.
Qed.

Lemma loop_in_step args :
  forall positional s,
    length positional = length args ->
    ~ In "--project-root" args -> ~ In "--help" args ->
    arg_loop args positional s = Continues (settled s args).
Proof.
  induction args as [|arg rest IH]; intros positional s Hlen Hroot Hhelp.
  - simpl. unfold settled, last_value. simpl.
    rewrite orb_false_r, app_nil_r. now destruct s.
  - destruct positional as [|x p]; [discriminate|].
    simpl in Hlen. injection Hlen as Hlen.
    assert (Hr : String.eqb arg "--project-root" = false).
    { apply String.eqb_neq. intros ->. apply Hroot. now left. }
    assert (Hh : String.eqb arg "--help" = false).
    { apply String.eqb_neq. intros ->. apply Hhelp. now left. }
    assert (Hgo : forall s', settled s' rest = settled s (arg :: rest) ->
                             after_shift rest (x :: p) s' = Continues (settled s (arg :: rest))).
    { intros s' <-. unfold after_shift. simpl. apply IH; auto.
      - intros Hi. apply Hroot. now right.
      - intros Hi. apply Hhelp. now right. }
    rewrite arg_loop_cons, Hr, Hh.
    destruct (strip_prefix "--project-root=" arg) as [v|] eqn:E1.
    { apply Hgo. apply strip_prefix_append in E1. subst arg.
      apply settled_after; reflexivity. }
    destruct (String.eqb arg "--passthrough") eqn:E2.
    { apply Hgo. apply String.eqb_eq in E2. subst arg.
      apply settled_after; reflexivity. }
    destruct (strip_prefix "--test-file=" arg) as [v|] eqn:E3.
    { apply Hgo. apply strip_prefix_append in E3. subst arg.
      apply settled_after; reflexivity. }
    destruct (strip_prefix "--timeout=" arg) as [v|] eqn:E4.
    { apply Hgo. apply strip_prefix_append in E4. subst arg.
      apply settled_after; reflexivity. }
    destruct (strip_prefix "--max-output=" arg) as [v|] eqn:E5.
    { apply Hgo. apply strip_prefix_append in E5. subst arg.
      apply settled_after; reflexivity. }
    apply Hgo.
    apply settled_after; rewrite ?E1, ?E2, ?E3, ?E4, ?E5; try reflexivity.
    unfold is_option, starts_with. now rewrite E1, E2, E3, E4, E5.
Qed.

(** X23.  When no argument is exactly --project-root or --help, the
    argument loop finishes: every option of the form --name=value holds
    the value of its last occurrence (the default when it does not
    occur), --passthrough is set when it occurs, and the arguments that
    are no options are kept, in order, for nix-unit. *)
Theorem equals_form_arguments_settle :
  forall args,
    ~ In "--project-root" args -> ~ In "--help" args ->
    parse_arguments args = Continues (settled defaults args).
Proof.
  intros args Hroot Hhelp. unfold parse_arguments.
  now apply loop_in_step.
Qed.

Lemma equals_form_arguments_settle_witness :
  parse_arguments ["--timeout"; "600"; "--max-output=5"; "--project-root=/a";
                   "--passthrough"; "--max-output=7"]
  = Continues {| PROJECT_ROOT := "/a"; PASSTHROUGH := true; TEST_FILE := "";
                 MAX_EXECUTION_TIME := "300"; MAX_OUTPUT_LINES := "7";
                 TEST_ARGS := ["--timeout"; "600"] |}.
Proof.
  rewrite (equals_form_arguments_settle
             ["--timeout"; "600"; "--max-output=5"; "--project-root=/a";
              "--passthrough"; "--max-output=7"]).
  - reflexivity.
  - intros H. repeat (destruct H as [H|H]; [discriminate|]). exact H.
  - intros H. repeat (destruct H as [H|H]; [discriminate|]). exact H.
Defined.

Lemma loop_with_help args :
  forall positional s,
    length positional = length args -> In "--help" args ->
    exists n, arg_loop args positional s = Exits n.
Proof.
  induction args as [|arg rest IH]; intros positional s Hlen Hin; [contradiction|].
  destruct positional as [|x p]; [discriminate|].
  simpl in Hlen. injection Hlen as Hlen.
  destruct (String.eqb arg "--help") eqn:E6.
  - apply String.eqb_eq in E6. subst arg. now exists 0.
  - assert (Hrest : In "--help" rest).
    { destruct Hin as [->|H]; [|exact H]. now rewrite String.eqb_refl in E6. }
    assert (Hshift : forall s', exists n, after_shift rest (x :: p) s' = Exits n).
    { intros s'. unfold after_shift. simpl. now apply IH. }
    rewrite arg_loop_cons, E6.
    destruct (strip_prefix "--project-root=" arg); [apply Hshift|].
    destruct (String.eqb arg "--project-root").
    { simpl. destruct p as [|v p]; [now exists 1|].
      destruct (loop_behind_never_continues rest p (set_PROJECT_ROOT v s))
        as (n & -> & _); [simpl in Hlen; lia | now exists n]. }
    destruct (String.eqb arg "--passthrough"); [apply Hshift|].
    destruct (strip_prefix "--test-file=" arg); [apply Hshift|].
    destruct (strip_prefix "--timeout=" arg); [apply Hshift|].
    destruct (strip_prefix "--max-output=" arg); [apply Hshift|].
    apply Hshift.
Qed.

Lemma last_value_occurs prefix args :
  forall default,
    last_value prefix default args = default
    \/ In (prefix ++ last_value prefix default args)%string args.
Proof.
  unfold last_value.
  induction args as [|arg rest IH]; intros default; simpl; [now left|].
  destruct (strip_prefix prefix arg) as [v|] eqn:E.
  - destruct (IH v) as [->|H]; [|now right; right].
    right. left. now apply strip_prefix_append in E.
  - destruct (IH default) as [H|H]; [now left | now right; right].
Qed.

(** X24.  The script gets past its start only when the project root was
    given as --project-root=PATH, with a PATH that starts with '/' and
    is a directory, and with a timeout and an output limit that the
    checks accept. *)
Theorem start_needs_equals_form_root :
  forall is_directory args s,
    startup is_directory args = Continues s ->
    In ("--project-root=" ++ PROJECT_ROOT s)%string args
    /\ starts_with "/" (PROJECT_ROOT s) = true
    /\ is_directory (PROJECT_ROOT s) = true
    /\ bad_count (MAX_EXECUTION_TIME s) = false
    /\ bad_count (MAX_OUTPUT_LINES s) = false
    /\ s = settled defaults args.
Proof.
  intros is_directory args s. unfold startup.
  destruct (parse_arguments args) as [s0|n] eqn:Hparse; [|discriminate].
  assert (Hroot : ~ In "--project-root" args).
  { intros Hin. destruct (space_form_exit args Hin) as (n & Hn). congruence. }
  assert (Hhelp : ~ In "--help" args).
  { intros Hin. destruct (loop_with_help args args defaults eq_refl Hin) as (n & Hn).
    unfold parse_arguments in Hparse. congruence. }
  unfold parse_arguments in Hparse.
  rewrite (loop_in_step args args defaults eq_refl Hroot Hhelp) in Hparse.
  injection Hparse as <-.
  unfold validate.
  destruct (nonempty (PROJECT_ROOT (settled defaults args))) eqn:H1; [|discriminate].
  destruct (starts_with "/" (PROJECT_ROOT (settled defaults args))) eqn:H2; [|discriminate].
  destruct (is_directory (PROJECT_ROOT (settled defaults args))) eqn:H3; [|discriminate].
  destruct (bad_count (MAX_EXECUTION_TIME (settled defaults args))) eqn:H4; [discriminate|].
  destruct (bad_count (MAX_OUTPUT_LINES (settled defaults args))) eqn:H5; [discriminate|].
  simpl. intros [= <-].
  repeat split; auto.
  simpl PROJECT_ROOT in *.
  destruct (last_value_occurs "--project-root=" args "") as [H|H]; [|exact H].
  rewrite H in H1. discriminate.
Qed.

Lemma start_needs_equals_form_root_witness :
  In ("--project-root=" ++ "/srv/project")%string
     ["--project-root=/srv/project"; "--passthrough"]
  /\ starts_with "/" "/srv/project" = true.
Proof.
  destruct (start_needs_equals_form_root
              (fun p => String.eqb p "/srv/project")
              ["--project-root=/srv/project"; "--passthrough"]
              {| PROJECT_ROOT := "/srv/project"; PASSTHROUGH := true; TEST_FILE := "";
                 MAX_EXECUTION_TIME := "300"; MAX_OUTPUT_LINES := "10000";
                 TEST_ARGS := [] |})
    as (H1 & H2 & _).
  - vm_compute. reflexivity.
  - split; [exact H1 | exact H2].
Defined.

End CommandLine.

Section Counts.
Import Text NixReporter NixCli Contract Facts Samples.

Lemma digit_range c : is_digit c = true -> (0 <= digit_of c <= 9)%Z.
Proof.
  unfold is_digit, digit_of. intros H. apply andb_prop in H. destruct H as [H1 H2].
  apply Nat.leb_le in H1. apply Nat.leb_le in H2. lia.
Qed.

Lemma two_64_nonzero : (2 ^ 64 <> 0)%Z.
Proof. discriminate. Qed.

Lemma wrap64_congruent a k : wrap64 (a + k * 2 ^ 64) = wrap64 a.
Proof.
  unfold wrap64.
  replace (a + k * 2 ^ 64 + 2 ^ 63)%Z with (a + 2 ^ 63 + k * 2 ^ 64)%Z by ring.
  now rewrite (Z.mod_add _ _ _ two_64_nonzero).
Qed.

Lemma wrap64_step a d : wrap64 (wrap64 a * 10 + d) = wrap64 (a * 10 + d).
Proof.
  unfold wrap64 at 2.
  rewrite (Z.mod_eq (a + 2 ^ 63) (2 ^ 64) two_64_nonzero).
  set (q := ((a + 2 ^ 63) / 2 ^ 64)%Z).
  replace ((a + 2 ^ 63 - 2 ^ 64 * q - 2 ^ 63) * 10 + d)%Z
    with (a * 10 + d + (- 10 * q) * 2 ^ 64)%Z by ring.
  apply wrap64_congruent.
Qed.

Lemma wrap64_small v : (0 <= v < 2 ^ 63)%Z -> wrap64 v = v.
Proof.
  intros H. unfold wrap64.
  change (2 ^ 64)%Z with 18446744073709551616%Z.
  change (2 ^ 63)%Z with 9223372036854775808%Z in *.
  rewrite Z.mod_small; lia.
Qed.

Lemma decimal_digits s :
  all_digits s = true ->
  forall a, digits_value 10 (wrap64 a) s = Some (wrap64 (decimal_value a s)).
Proof.
  induction s as [|c s IH]; simpl; intros H a; [reflexivity|].
  apply andb_prop in H. destruct H as [Hc Hs].
  pose proof (digit_range c Hc) as Hd.
  assert ((digit_of c <? 10)%Z = true) as -> by lia.
  rewrite wrap64_step. now apply IH.
Qed.

Lemma decimal_value_grows s :
  all_digits s = true -> forall a, (0 <= a)%Z -> (a <= decimal_value a s)%Z.
Proof.
  induction s as [|c s IH]; simpl; intros H a Ha; [lia|].
  apply andb_prop in H. destruct H as [Hc Hs].
  pose proof (digit_range c Hc) as Hd.
  specialize (IH Hs (a * 10 + digit_of c)%Z). lia.
Qed.

(** X25.  The checks of --timeout and --max-output accept every decimal
    numeral without leading zero whose value is below 2^63. *)
Theorem plain_counts_are_accepted :
  forall c s,
    all_digits (String c s) = true ->
    c <> "0"%char ->
    (decimal_value 0 (String c s) < 2 ^ 63)%Z ->
    bad_count (String c s) = false.
Proof.
  intros c s Hdigits Hc Hsmall.
  unfold bad_count, is_count, le_zero, arith_constant.
  rewrite Hdigits. cbn [nonempty andb negb orb].
  assert (Ascii.eqb c "0" = false) as -> by (now apply Ascii.eqb_neq).
  change 0%Z with (wrap64 0) at 1.
  rewrite (decimal_digits _ Hdigits 0).
  simpl in Hdigits. apply andb_prop in Hdigits. destruct Hdigits as [Hd Hs].
  pose proof (digit_range c Hd) as Hr.
  assert (Hone : (1 <= digit_of c)%Z).
  { destruct (Z.eq_dec (digit_of c) 0) as [E|E]; [|lia].
    exfalso. apply Hc. unfold digit_of in E.
    rewrite <- (ascii_nat_embedding c), <- (ascii_nat_embedding "0").
    f_equal. change (nat_of_ascii "0") with 48. lia. }
  assert (Hpos : (1 <= decimal_value 0 (String c s))%Z).
  { change (decimal_value 0 (String c s))
      with (decimal_value (0 * 10 + digit_of c) s).
    pose proof (decimal_value_grows s Hs (0 * 10 + digit_of c)%Z). lia. }
  rewrite wrap64_small by (split; [lia | exact Hsmall]).
  apply Z.leb_gt. lia.
Qed.

Lemma plain_counts_are_accepted_witness : bad_count "10000" = false.
Proof.
  apply (plain_counts_are_accepted "1" "0000").
  - reflexivity.
  - discriminate.
  - vm_compute. reflexivity.
Defined.

Lemma octal_error s :
  has_high_digit s = true -> forall a, digits_value 8 a s = None.
Proof.
  induction s as [|c s IH]; simpl; [discriminate|].
  intros H a. destruct (8 <=? digit_of c)%Z eqn:E.
  - assert ((digit_of c <? 8)%Z = false) as -> by lia. reflexivity.
  - simpl in H. destruct (digit_of c <? 8)%Z; [now apply IH | reflexivity].
Qed.

(** X26.  The same checks accept a numeral that starts with 0 and holds
    a digit 8 or 9: the arithmetic test on it is in error, which the
    script takes for "not less than or equal to zero". *)
Theorem octal_errors_are_accepted :
  forall s,
    all_digits s = true -> has_high_digit s = true ->
    bad_count (String "0" s) = false.
Proof.
  intros s Hdigits Hhigh.
  unfold bad_count, is_count, le_zero, arith_constant.
  cbn [all_digits nonempty]. rewrite Hdigits.
  change (is_digit "0") with true. cbn [andb negb orb Ascii.eqb].
  change (Ascii.eqb "0" "0") with true. cbv iota.
  now rewrite (octal_error s Hhigh).
Qed.

Lemma octal_errors_are_accepted_witness : bad_count "08" = false.
Proof.
  apply (octal_errors_are_accepted "8"); reflexivity.
Defined.

End Counts.

Section LinePatterns.
Import Text NixReporter NixCli Contract Facts Samples.
Local Arguments is_space : simpl never.

Lemma drop_spaces_run run s :
  all_space run = true -> ends_word s = false ->
  drop_spaces (run ++ s)%string = s.
Proof.
  intros Hrun Hs. induction run as [|c run IH]; simpl.
  - destruct s as [|d s]; [discriminate|]. simpl in *. now rewrite Hs.
  - simpl in Hrun. apply andb_prop in Hrun. destruct Hrun as [Hc Hrun].
    rewrite Hc. now apply IH.
Qed.

Lemma spaces1_run run s :
  blank_run run = true -> ends_word s = false ->
  spaces1 (run ++ s)%string = Some s.
Proof.
  unfold blank_run. intros H Hs. apply andb_prop in H. destruct H as [Hne Hrun].
  destruct run as [|c run]; [discriminate|].
  simpl in *. apply andb_prop in Hrun. destruct Hrun as [Hc Hrun].
  rewrite Hc. now rewrite (drop_spaces_run run s Hrun Hs).
Qed.

Lemma take_nonspace_word w rest :
  no_space w = true -> ends_word rest = true ->
  take_nonspace (w ++ rest)%string = w.
Proof.
  intros Hw Hrest. induction w as [|c w IH]; simpl.
  - destruct rest as [|d rest]; [reflexivity|]. simpl in *. now rewrite Hrest.
  - simpl in Hw. apply andb_prop in Hw. destruct Hw as [Hc Hw].
    apply negb_true_iff in Hc. rewrite Hc. now rewrite (IH Hw).
Qed.

Lemma word_is_no_space_start w rest :
  word w = true -> ends_word (w ++ rest)%string = false.
Proof.
  unfold word. intros H. apply andb_prop in H. destruct H as [Hne Hw].
  destruct w as [|c w]; [discriminate|].
  simpl in *. apply andb_prop in Hw. destruct Hw as [Hc _].
  now apply negb_true_iff in Hc.
Qed.

(** X27.  A line made of a status glyph, space characters and a word is
    a test line with that glyph and that word as the name, whatever
    follows the word after a space. *)
Theorem test_line_is_recognized :
  forall mark run w rest,
    blank_run run = true -> word w = true -> ends_word rest = true ->
    match_test_line (glyph_of mark ++ run ++ w ++ rest)%string = Some (mark, w).
Proof.
  intros mark run w rest Hrun Hw Hrest.
  pose proof (word_is_no_space_start w rest Hw) as Hstart.
  pose proof (spaces1_run run (w ++ rest)%string Hrun Hstart) as Hsp.
  unfold word in Hw. apply andb_prop in Hw. destruct Hw as [Hne Hns].
  pose proof (take_nonspace_word w rest Hns Hrest) as Htake.
  unfold match_test_line.
  destruct mark; cbn [glyph_of].
  - change (strip_prefix "✅" ("✅" ++ run ++ w ++ rest)%string)
      with (Some (run ++ w ++ rest)%string).
    cbv beta iota zeta. now rewrite Hsp, Htake, Hne.
  - change (strip_prefix "✅" ("❌" ++ run ++ w ++ rest)%string)
      with (@None string).
    change (strip_prefix "❌" ("❌" ++ run ++ w ++ rest)%string)
      with (Some (run ++ w ++ rest)%string).
    cbv beta iota zeta. now rewrite Hsp, Htake, Hne.
Qed.

Lemma test_line_is_recognized_witness :
  match_test_line ("❌" ++ "  " ++ "testBasicMath" ++ " (slow)")%string
  = Some (cross, "testBasicMath").
Proof.
  apply (test_line_is_recognized cross "  " "testBasicMath" " (slow)");
    reflexivity.
Defined.

Lemma error_here_found tail :
  error_here tail = true -> forall pre, is_error_line (pre ++ tail)%string = true.
Proof.
  intros H pre. induction pre as [|c pre IH].
  - destruct tail as [|a t]; [discriminate|].
    change (is_error_line (EmptyString ++ String a t)%string)
      with (error_here (String a t) || is_error_line t).
    now rewrite H.
  - change (is_error_line (String c pre ++ tail)%string)
      with (error_here (String c (pre ++ tail)%string)
            || is_error_line (pre ++ tail)%string).
    rewrite IH. apply orb_true_r.
Qed.

(** X28.  A line that holds "error:" or "Error:" anywhere, or the word
    "syntax", space characters and "error", matches the error pattern. *)
Theorem error_pattern_anywhere :
  forall pre post,
    is_error_line (pre ++ "error:" ++ post)%string = true
    /\ is_error_line (pre ++ "Error:" ++ post)%string = true
    /\ (forall run, blank_run run = true ->
          is_error_line (pre ++ "syntax" ++ run ++ "error" ++ post)%string = true).
Proof.
  intros pre post. split; [|split].
  - now apply error_here_found.
  - now apply error_here_found.
  - intros run Hrun. apply error_here_found.
    assert (H : match strip_prefix "syntax" ("syntax" ++ run ++ "error" ++ post)%string with
                | Some r =>
                    match spaces1 r with
                    | Some r' => starts_with "error" r'
                    | None => false
                    end
                | None => false
                end = true).
    { change (strip_prefix "syntax" ("syntax" ++ run ++ "error" ++ post)%string)
        with (Some (run ++ "error" ++ post)%string).
      cbv beta iota.
      now rewrite (spaces1_run run ("error" ++ post)%string Hrun eq_refl). }
    unfold error_here. rewrite H. apply orb_true_r.
Qed.

Lemma error_pattern_anywhere_witness :
  is_error_line ("foo.nix: " ++ "syntax" ++ "  " ++ "error" ++ ", unexpected")%string
  = true.
Proof.
  apply (proj2 (proj2 (error_pattern_anywhere "foo.nix: " ", unexpected")) "  ").
  reflexivity.
Defined.

End LinePatterns.
